(** * HollaEx node library: the websocket part of [kit.js]

    A shallow embedding of the streaming half of [class HollaExKit]
    ([connect], [disconnect], [subscribe], [unsubscribe], the four
    listeners [connect] installs, and the constructor), followed by the
    properties of the subscription bookkeeping ([wsEvents]), of the
    connection gating ([wsConnected]) and of the reconnect machinery
    ([wsReconnect], [wsEventListeners], [setTimeout]).

    Strings are byte strings (UTF-8 text); every separator the code looks
    for is ASCII.  Numbers that the code only adds and prints (unix time,
    the expiry window) are integers in [Z]. *)

From Stdlib Require Import ZArith String Ascii List DecimalString Lia.
From stdpp Require Import base option list strings gmap.

Open Scope string_scope.

(** ** The JavaScript and lodash primitives the code calls *)

Module JS.

(** A thrown value: [new Error(msg)], or the [TypeError] of a property
    read on [null]. *)
Inductive Exception :=
| Error (message : string)
| TypeError.

(** How a call ends.  An exception does not roll the state back, so every
    operation returns its completion together with the state it left. *)
Inductive Completion :=
| Normal
| Throw (e : Exception).

(** [Array.prototype.includes] on an array of strings. *)
Definition includes (arr : list string) (x : string) : bool :=
  existsb (String.eqb x) arr.

(** [String.prototype.includes]: [sub] occurs somewhere in [s]. *)
Fixpoint str_includes (s sub : string) : bool :=
  String.prefix sub s ||
  match s with
  | EmptyString => false
  | String _ s' => str_includes s' sub
  end.

(** [String.prototype.split] for a non-empty separator.  [cur] is the
    segment being read, [skip] the number of separator characters still
    to drop after a match. *)
Fixpoint split_from (sep cur s : string) (skip : nat) : list string :=
  match s with
  | EmptyString => [cur]
  | String c s' =>
      match skip with
      | S k => split_from sep cur s' k
      | O =>
          if String.prefix sep s
          then cur :: split_from sep EmptyString s' (String.length sep - 1)
          else split_from sep (cur ++ String c EmptyString) s' 0
      end
  end.

Definition split (s sep : string) : list string :=
  split_from sep EmptyString s 0.

(** Truthiness of a value that is a string or [undefined]. *)
Definition truthy (v : option string) : bool :=
  match v with
  | Some s => negb (s =? EmptyString)
  | None => false
  end.

(** [a || b] on such values. *)
Definition or_else (v : option string) (dflt : string) : string :=
  match v with
  | Some s => if s =? EmptyString then dflt else s
  | None => dflt
  end.

(** A template-string hole filled with a string or [undefined]. *)
Definition interpolate (v : option string) : string :=
  match v with
  | Some s => s
  | None => "undefined"
  end.

(** A template-string hole filled with an integer. *)
Definition string_of_number (z : Z) : string :=
  NilZero.string_of_int (Z.to_int z).

(** lodash [uniq]: first occurrences, in order. [seen] is what is already
    in the result. *)
Fixpoint uniq_from (seen l : list string) : list string :=
  match l with
  | [] => []
  | x :: l' =>
      if includes seen x then uniq_from seen l'
      else x :: uniq_from (x :: seen) l'
  end.

(** lodash [union(a, b)]: the unique values of both arrays, in order. *)
Definition union (a b : list string) : list string :=
  uniq_from [] (a ++ b)%list.

(** lodash [each] over an array, for a callback that returns nothing. *)
Definition each {S : Type} (arr : list string) (f : string -> S -> S) (st : S) : S :=
  foldl (fun acc x => f x acc) st arr.

(** The values [JSON.stringify] is applied to. *)
#[warnings="-register-all"]
Inductive json :=
| JString (s : string)
| JArray (items : list json)
| JObject (fields : list (string * json)).

Definition dquote : string := String "034"%char EmptyString.
Definition backslash : string := String "092"%char EmptyString.

Definition hex_digit (n : N) : string :=
  String (ascii_of_N (if (n <? 10)%N then 48 + n else 87 + n)) EmptyString.

(** One code unit inside a JSON string literal. *)
Definition json_escape (c : ascii) : string :=
  let n := N_of_ascii c in
  if (n =? 34)%N then backslash ++ dquote
  else if (n =? 92)%N then backslash ++ backslash
  else if (n =? 8)%N then backslash ++ "b"
  else if (n =? 12)%N then backslash ++ "f"
  else if (n =? 10)%N then backslash ++ "n"
  else if (n =? 13)%N then backslash ++ "r"
  else if (n =? 9)%N then backslash ++ "t"
  else if (n <? 32)%N then backslash ++ "u00" ++ hex_digit (n / 16) ++ hex_digit (n mod 16)
  else String c EmptyString.

Fixpoint json_escape_string (s : string) : string :=
  match s with
  | EmptyString => EmptyString
  | String c s' => json_escape c ++ json_escape_string s'
  end.

Definition json_quote (s : string) : string :=
  dquote ++ json_escape_string s ++ dquote.

(** [JSON.stringify] without indentation. *)
Fixpoint JSON_stringify (j : json) : string :=
  match j with
  | JString s => json_quote s
  | JArray items =>
      "[" ++
      (fix items_text (l : list json) : string :=
         match l with
         | [] => EmptyString
         | x :: l' =>
             JSON_stringify x ++
             match l' with [] => EmptyString | _ => "," ++ items_text l' end
         end) items
      ++ "]"
  | JObject fields =>
      "{" ++
      (fix fields_text (l : list (string * json)) : string :=
         match l with
         | [] => EmptyString
         | (k, v) :: l' =>
             json_quote k ++ ":" ++ JSON_stringify v ++
             match l' with [] => EmptyString | _ => "," ++ fields_text l' end
         end) fields
      ++ "}"
  end.

End JS.

Import JS.

(** ** The data the class keeps *)

(** [WebSocket.readyState] of the [ws] package. *)
Inductive ReadyState := CONNECTING | OPEN | CLOSING | CLOSED.

(** A callback held in an emitter's [_events]: one of the four arrow
    functions [connect] installs, or a callback of the caller
    ([client.ws.on(name, cb)]), known by a number. *)
Inductive Listener :=
| OnUnexpectedResponse
| OnError
| OnClose
| OnOpen
| CallerListener (id : nat).

(** An emitter's [_events] object: event name to listeners, in the order
    they were added. *)
Abbreviation EventTable := (gmap string (list Listener)).

(** A [WebSocket] object.  [_events] is a reference into the store of
    event tables (the object is shared when [connect] re-installs it),
    [outbox] the data frames written with [send], oldest first. *)
Record WebSocket := mkWebSocket {
  url : string;
  readyState : ReadyState;
  _events : nat;
  outbox : list string
}.

(** A call of [setWsHeartbeat(ws, pingMessage, {pingTimeout, pingInterval})]
    of the [ws-heartbeat] package. *)
Record Heartbeat := mkHeartbeat {
  hb_socket : nat;
  hb_pingMessage : string;
  hb_pingTimeout : Z;
  hb_pingInterval : Z
}.

(** The fields of a [HollaExKit] instance that the websocket code reads or
    writes.  [ws] and [wsEventListeners] are [null] or a reference;
    [initialConnection] is [undefined] (falsy) until [connect] sets it. *)
Record HollaExKit := mkHollaExKit {
  apiUrl : string;
  baseUrl : string;
  apiKey : option string;
  apiSecret : option string;
  apiExpiresAfter : Z;
  wsUrl : string;
  ws : option nat;
  wsEvents : list string;
  wsReconnect : bool;
  wsReconnectInterval : Z;
  wsEventListeners : option nat;
  initialConnection : bool
}.

(** The instance together with the objects it points to and what the
    event loop holds for it: every [WebSocket] constructed so far, every
    event table, the pending [setTimeout] callbacks (each is
    [() => this.connect(this.wsEvents)], kept with its delay), the
    heartbeats started, and the caller's callbacks invoked so far
    (listener and event name, oldest first). *)
Record Runtime := mkRuntime {
  this : HollaExKit;
  sockets : list WebSocket;
  tables : list EventTable;
  timers : list Z;
  heartbeats : list Heartbeat;
  deliveries : list (nat * string)
}.

Definition set_ws (v : option nat) (k : HollaExKit) : HollaExKit :=
  mkHollaExKit (apiUrl k) (baseUrl k) (apiKey k) (apiSecret k) (apiExpiresAfter k)
    (wsUrl k) v (wsEvents k) (wsReconnect k) (wsReconnectInterval k)
    (wsEventListeners k) (initialConnection k).

Definition set_wsEvents (v : list string) (k : HollaExKit) : HollaExKit :=
  mkHollaExKit (apiUrl k) (baseUrl k) (apiKey k) (apiSecret k) (apiExpiresAfter k)
    (wsUrl k) (ws k) v (wsReconnect k) (wsReconnectInterval k)
    (wsEventListeners k) (initialConnection k).

Definition set_wsReconnect (v : bool) (k : HollaExKit) : HollaExKit :=
  mkHollaExKit (apiUrl k) (baseUrl k) (apiKey k) (apiSecret k) (apiExpiresAfter k)
    (wsUrl k) (ws k) (wsEvents k) v (wsReconnectInterval k)
    (wsEventListeners k) (initialConnection k).

Definition set_wsEventListeners (v : option nat) (k : HollaExKit) : HollaExKit :=
  mkHollaExKit (apiUrl k) (baseUrl k) (apiKey k) (apiSecret k) (apiExpiresAfter k)
    (wsUrl k) (ws k) (wsEvents k) (wsReconnect k) (wsReconnectInterval k)
    v (initialConnection k).

Definition set_initialConnection (v : bool) (k : HollaExKit) : HollaExKit :=
  mkHollaExKit (apiUrl k) (baseUrl k) (apiKey k) (apiSecret k) (apiExpiresAfter k)
    (wsUrl k) (ws k) (wsEvents k) (wsReconnect k) (wsReconnectInterval k)
    (wsEventListeners k) v.

(** An assignment to a field of [this]. *)
Definition assign (f : HollaExKit -> HollaExKit) (r : Runtime) : Runtime :=
  mkRuntime (f (this r)) (sockets r) (tables r) (timers r) (heartbeats r) (deliveries r).

Definition set_sockets (v : list WebSocket) (r : Runtime) : Runtime :=
  mkRuntime (this r) v (tables r) (timers r) (heartbeats r) (deliveries r).

Definition set_tables (v : list EventTable) (r : Runtime) : Runtime :=
  mkRuntime (this r) (sockets r) v (timers r) (heartbeats r) (deliveries r).

Definition set_timers (v : list Z) (r : Runtime) : Runtime :=
  mkRuntime (this r) (sockets r) (tables r) v (heartbeats r) (deliveries r).

Definition set_heartbeats (v : list Heartbeat) (r : Runtime) : Runtime :=
  mkRuntime (this r) (sockets r) (tables r) (timers r) v (deliveries r).

Definition set_deliveries (v : list (nat * string)) (r : Runtime) : Runtime :=
  mkRuntime (this r) (sockets r) (tables r) (timers r) (heartbeats r) v.

Definition set_readyState (v : ReadyState) (s : WebSocket) : WebSocket :=
  mkWebSocket (url s) v (_events s) (outbox s).

Definition set__events (v : nat) (s : WebSocket) : WebSocket :=
  mkWebSocket (url s) (readyState s) v (outbox s).

Definition set_outbox (v : list string) (s : WebSocket) : WebSocket :=
  mkWebSocket (url s) (readyState s) (_events s) v.

(** ** The constructor *)

(** The [opts] object; an absent property is [None]. *)
Record Options := mkOptions {
  opt_apiURL : option string;
  opt_baseURL : option string;
  opt_wsURL : option string;
  opt_apiKey : option string;
  opt_apiSecret : option string;
  opt_apiExpiresAfter : option Z
}.

(** [constructor(opts)], as in the copy of the class that accepts a
    [wsURL] option; without that option it is the other copy. *)
Definition constructor (opts : Options) : HollaExKit :=
  let apiUrl := or_else (opt_apiURL opts) "https://api.hollaex.com" in
  let parts := split apiUrl "://" in
  let protocol := parts !! 0%nat in
  let endpoint := parts !! 1%nat in
  {| apiUrl := apiUrl;
     baseUrl := or_else (opt_baseURL opts) "/v2";
     apiKey := opt_apiKey opts;
     apiSecret := opt_apiSecret opts;
     apiExpiresAfter :=
       match opt_apiExpiresAfter opts with
       | Some z => if (z =? 0)%Z then 60%Z else z
       | None => 60%Z
       end;
     ws := None;
     wsUrl :=
       if truthy (opt_wsURL opts) then interpolate (opt_wsURL opts)
       else if bool_decide (protocol = Some "https")
            then "wss://" ++ interpolate endpoint ++ "/stream"
            else "ws://" ++ interpolate endpoint ++ "/stream";
     wsEvents := [];
     wsReconnect := true;
     wsReconnectInterval := 5000%Z;
     wsEventListeners := None;
     initialConnection := false |}.

(** A freshly constructed instance, before any call. *)
Definition boot (opts : Options) : Runtime :=
  mkRuntime (constructor opts) [] [] [] [] [].

(** ** Sockets *)

(** The object [this.ws] points to, if any. *)
Definition current_socket (r : Runtime) : option WebSocket :=
  i ← ws (this r); sockets r !! i.

(** [this.wsConnected()]. *)
Definition wsConnected (r : Runtime) : bool :=
  match current_socket r with
  | Some s => match readyState s with OPEN => true | _ => false end
  | None => false
  end.

(** What has been written to [this.ws]. *)
Definition sent (r : Runtime) : list string :=
  match current_socket r with
  | Some s => outbox s
  | None => []
  end.

(** [this.ws.send(data)], reached only behind [wsConnected]. *)
Definition ws_send (data : string) (r : Runtime) : Runtime :=
  match ws (this r) with
  | Some i => set_sockets (alter (fun s => set_outbox (outbox s ++ [data]) s) i (sockets r)) r
  | None => r
  end.

(** [this.ws.close()]: a socket that is not yet closed starts closing. *)
Definition ws_close (r : Runtime) : Runtime :=
  match ws (this r) with
  | Some i =>
      set_sockets
        (alter (fun s => match readyState s with
                         | CLOSED => s
                         | _ => set_readyState CLOSING s
                         end) i (sockets r)) r
  | None => r
  end.

(** [this.ws.on(name, l)]: [l] is appended to the listeners of [name] in
    the table [this.ws._events] points to. *)
Definition ws_on (name : string) (l : Listener) (r : Runtime) : Runtime :=
  match current_socket r with
  | Some s =>
      set_tables
        (alter (fun t => <[name := (default [] (t !! name) ++ [l])%list]> t)
               (_events s) (tables r)) r
  | None => r
  end.

(** [this.ws._events = t]: the socket now shares the table [t]. *)
Definition ws_set__events (t : nat) (r : Runtime) : Runtime :=
  match ws (this r) with
  | Some i => set_sockets (alter (set__events t) i (sockets r)) r
  | None => r
  end.

(** The wire messages. *)
Definition subscribe_message (arg : string) : string :=
  JSON_stringify (JObject [("op", JString "subscribe"); ("args", JArray [JString arg])]).

Definition unsubscribe_message (arg : string) : string :=
  JSON_stringify (JObject [("op", JString "unsubscribe"); ("args", JArray [JString arg])]).

Definition ping_message : string :=
  JSON_stringify (JObject [("op", JString "ping")]).

Definition not_connected : Exception := Error "Websocket not connected".

(** ** [subscribe] and [unsubscribe] *)

(** [case 'orderbook': case 'trade':] *)
Definition is_public_topic (topic : option string) : bool :=
  bool_decide (topic = Some "orderbook") || bool_decide (topic = Some "trade").

(** The private [case] labels of [subscribe]. *)
Definition is_private_topic_subscribe (topic : option string) : bool :=
  bool_decide (topic = Some "order") || bool_decide (topic = Some "usertrade")
  || bool_decide (topic = Some "wallet") || bool_decide (topic = Some "deposit")
  || bool_decide (topic = Some "withdrawal") || bool_decide (topic = Some "admin").

(** The private [case] labels of [unsubscribe]. *)
Definition is_private_topic_unsubscribe (topic : option string) : bool :=
  bool_decide (topic = Some "order")
  || bool_decide (topic = Some "wallet") || bool_decide (topic = Some "deposit")
  || bool_decide (topic = Some "withdrawal") || bool_decide (topic = Some "admin").

(** [const [topic, symbol] = event.split(':')] *)
Definition event_topic (event : string) : option string := split event ":" !! 0%nat.
Definition event_symbol (event : string) : option string := split event ":" !! 1%nat.

(** The callback [subscribe] passes to [each]. *)
Definition subscribe_event (event : string) (r : Runtime) : Runtime :=
  if negb (includes (wsEvents (this r)) event) || initialConnection (this r) then
    let topic := event_topic event in
    let symbol := event_symbol event in
    if is_public_topic topic then
      if truthy symbol then
        if negb (includes (wsEvents (this r)) (interpolate topic)) then
          let r1 := ws_send (subscribe_message (interpolate topic ++ ":" ++ interpolate symbol)) r in
          if negb (initialConnection (this r1))
          then assign (set_wsEvents (union (wsEvents (this r1)) [event])) r1
          else r1
        else r
      else
        let r1 := ws_send (subscribe_message (interpolate topic)) r in
        if negb (initialConnection (this r1)) then
          let r2 :=
            assign (set_wsEvents
                      (List.filter (fun e => negb (str_includes e (interpolate topic ++ ":")))
                                   (wsEvents (this r1)))) r1 in
          assign (set_wsEvents (union (wsEvents (this r2)) [event])) r2
        else r1
    else if is_private_topic_subscribe topic then
      let r1 := ws_send (subscribe_message (interpolate topic)) r in
      if negb (initialConnection (this r1))
      then assign (set_wsEvents (union (wsEvents (this r1)) [event])) r1
      else r1
    else r
  else r.

(** [subscribe(events)] *)
Definition subscribe (events : list string) (r : Runtime) : Completion * Runtime :=
  if wsConnected r then (Normal, each events subscribe_event r)
  else (Throw not_connected, r).

(** The callback [unsubscribe] passes to [each]. *)
Definition unsubscribe_event (event : string) (r : Runtime) : Runtime :=
  if includes (wsEvents (this r)) event then
    let topic := event_topic event in
    let symbol := event_symbol event in
    if is_public_topic topic then
      let r1 :=
        if truthy symbol
        then ws_send (unsubscribe_message (interpolate topic ++ ":" ++ interpolate symbol)) r
        else ws_send (unsubscribe_message (interpolate topic)) r in
      assign (set_wsEvents (List.filter (fun e => negb (e =? event)) (wsEvents (this r1)))) r1
    else if is_private_topic_unsubscribe topic then
      let r1 := ws_send (unsubscribe_message (interpolate topic)) r in
      assign (set_wsEvents (List.filter (fun e => negb (e =? event)) (wsEvents (this r1)))) r1
    else r
  else r.

(** [unsubscribe(events)] *)
Definition unsubscribe (events : list string) (r : Runtime) : Completion * Runtime :=
  if wsConnected r then (Normal, each events unsubscribe_event r)
  else (Throw not_connected, r).

(** [disconnect()] *)
Definition disconnect (r : Runtime) : Completion * Runtime :=
  if wsConnected r then (Normal, ws_close (assign (set_wsReconnect false) r))
  else (Throw not_connected, r).

(** ** [connect] and the listeners it installs *)

Section Connect.

(** [createSignature(secret, verb, path, expires)] of [./utils]. *)
Variable createSignature : string -> string -> string -> Z -> string.

(** The URL [connect] opens; [now] is [moment().unix()]. *)
Definition connect_url (now : Z) (k : HollaExKit) : string :=
  if truthy (apiKey k) && truthy (apiSecret k) then
    let apiExpires := (now + apiExpiresAfter k)%Z in
    let signature := createSignature (interpolate (apiSecret k)) "CONNECT" "/stream" apiExpires in
    wsUrl k ++ "?api-key=" ++ interpolate (apiKey k)
            ++ "&api-signature=" ++ signature
            ++ "&api-expires=" ++ string_of_number apiExpires
  else wsUrl k.

(** [this.ws = new WebSocket(url)]: a new socket, connecting, with an
    event table of its own. *)
Definition new_WebSocket (url : string) (r : Runtime) : Runtime :=
  let s := mkWebSocket url CONNECTING (length (tables r)) [] in
  assign (set_ws (Some (length (sockets r))))
    (set_tables (tables r ++ [∅])%list (set_sockets (sockets r ++ [s])%list r)).

(** [connect(events)] called when [moment().unix()] is [now]. *)
Definition connect (now : Z) (events : list string) (r : Runtime) : Runtime :=
  let r1 := assign (set_wsReconnect true) r in
  let r2 := assign (set_wsEvents events) r1 in
  let r3 := assign (set_initialConnection true) r2 in
  let r4 := new_WebSocket (connect_url now (this r3)) r3 in
  match wsEventListeners (this r4) with
  | Some t => ws_set__events t r4
  | None =>
      ws_on "open" OnOpen
        (ws_on "close" OnClose
           (ws_on "error" OnError
              (ws_on "unexpected-response" OnUnexpectedResponse r4)))
  end.

(** [setTimeout(() => { this.connect(this.wsEvents) }, this.wsReconnectInterval)] *)
Definition setTimeout_reconnect (r : Runtime) : Runtime :=
  set_timers (timers r ++ [wsReconnectInterval (this r)])%list r.

(** The branch shared by the three failure listeners:
    keep the listeners and reconnect later, or drop everything. *)
Definition reconnect_or_drop (s : WebSocket) (r : Runtime) : Runtime :=
  if wsReconnect (this r) then
    setTimeout_reconnect
      (assign (set_ws None) (assign (set_wsEventListeners (Some (_events s))) r))
  else
    assign (set_ws None) (assign (set_wsEventListeners None) r).

(** The listener of ['unexpected-response'] and of ['error']. *)
Definition on_error (r : Runtime) : Completion * Runtime :=
  match current_socket r with
  | None => (Throw TypeError, r)
  | Some s =>
      match readyState s with
      | CLOSING => (Normal, r)
      | OPEN => (Normal, ws_close r)
      | _ => (Normal, reconnect_or_drop s r)
      end
  end.

(** The listener of ['close']. *)
Definition on_close (r : Runtime) : Completion * Runtime :=
  if wsReconnect (this r) then
    match current_socket r with
    | None => (Throw TypeError, r)
    | Some s => (Normal, reconnect_or_drop s r)
    end
  else (Normal, assign (set_ws None) (assign (set_wsEventListeners None) r)).

(** The listener of ['open'].  [setWsHeartbeat] registers listeners on its
    first argument, so on [null] it throws. *)
Definition on_open (r : Runtime) : Completion * Runtime :=
  let '(c, r1) :=
    if (0 <? length (wsEvents (this r)))%nat
    then subscribe (wsEvents (this r)) r
    else (Normal, r) in
  match c with
  | Throw e => (Throw e, r1)
  | Normal =>
      let r2 := assign (set_initialConnection false) r1 in
      match ws (this r2) with
      | None => (Throw TypeError, r2)
      | Some i =>
          (Normal,
           set_heartbeats (heartbeats r2 ++ [mkHeartbeat i ping_message 60000 25000])%list r2)
      end
  end.

(** ** The event loop *)

(** One listener called for the event [name]. *)
Definition call_listener (name : string) (l : Listener) (r : Runtime) : Completion * Runtime :=
  match l with
  | OnUnexpectedResponse => on_error r
  | OnError => on_error r
  | OnClose => on_close r
  | OnOpen => on_open r
  | CallerListener id => (Normal, set_deliveries (deliveries r ++ [(id, name)])%list r)
  end.

(** The listeners are called in order; the first exception ends the
    emission. *)
Fixpoint call_listeners (name : string) (ls : list Listener) (r : Runtime) : Completion * Runtime :=
  match ls with
  | [] => (Normal, r)
  | l :: ls' =>
      match call_listener name l r with
      | (Normal, r1) => call_listeners name ls' r1
      | (Throw e, r1) => (Throw e, r1)
      end
  end.

(** The listeners socket [i] holds for [name]. *)
Definition listeners (i : nat) (name : string) (r : Runtime) : list Listener :=
  default [] (s ← sockets r !! i; t ← tables r !! _events s; t !! name).

(** Socket [i] emits [name]. *)
Definition emit (i : nat) (name : string) (r : Runtime) : Completion * Runtime :=
  call_listeners name (listeners i name r) r.

(** What can happen to an instance: a call of the caller, something the
    transport does to one of the sockets, or a timer that fires. *)
Inductive Step :=
| CallConnect (now : Z) (events : list string)
| CallDisconnect
| CallSubscribe (events : list string)
| CallUnsubscribe (events : list string)
| CallOn (name : string) (id : nat)
| SocketOpens (i : nat)
| SocketCloses (i : nat)
| SocketClosing (i : nat)
| SocketEmits (i : nat) (name : string)
| TimerFires (now : Z).

(** [client.ws.on(name, cb)] written by the caller. *)
Definition caller_on (name : string) (id : nat) (r : Runtime) : Completion * Runtime :=
  match ws (this r) with
  | None => (Throw TypeError, r)
  | Some _ => (Normal, ws_on name (CallerListener id) r)
  end.

(** One step.  A socket opens once, from [CONNECTING], and closes once. *)
Definition exec (st : Step) (r : Runtime) : Completion * Runtime :=
  match st with
  | CallConnect now events => (Normal, connect now events r)
  | CallDisconnect => disconnect r
  | CallSubscribe events => subscribe events r
  | CallUnsubscribe events => unsubscribe events r
  | CallOn name id => caller_on name id r
  | SocketOpens i =>
      match readyState <$> sockets r !! i with
      | Some CONNECTING =>
          emit i "open" (set_sockets (alter (set_readyState OPEN) i (sockets r)) r)
      | _ => (Normal, r)
      end
  | SocketCloses i =>
      match readyState <$> sockets r !! i with
      | Some CLOSED | None => (Normal, r)
      | Some _ =>
          emit i "close" (set_sockets (alter (set_readyState CLOSED) i (sockets r)) r)
      end
  | SocketClosing i =>
      match readyState <$> sockets r !! i with
      | Some CLOSED | None => (Normal, r)
      | Some _ => (Normal, set_sockets (alter (set_readyState CLOSING) i (sockets r)) r)
      end
  | SocketEmits i name => emit i name r
  | TimerFires now =>
      match timers r with
      | [] => (Normal, r)
      | _ :: rest => (Normal, connect now (wsEvents (this r)) (set_timers rest r))
      end
  end.

(** A run of steps; an exception ends its step only. *)
Definition run (steps : list Step) (r : Runtime) : Runtime :=
  foldl (fun acc st => snd (exec st acc)) r steps.

End Connect.

(** ** The vocabulary of the specification *)

(** The connection states of the specification, read off the instance:
    the socket [this.ws] points to decides; without a socket the instance
    has been stopped by [disconnect] ([wsReconnect] is off), waits for a
    reconnect timer, or is idle. *)
Inductive ConnectionState :=
| Idle | Connecting | Open | Closing | Faulted | WaitingToReconnect | Stopped.

Definition connection_state (r : Runtime) : ConnectionState :=
  match current_socket r with
  | Some s =>
      match readyState s with
      | CONNECTING => Connecting
      | OPEN => Open
      | CLOSING => Closing
      | CLOSED => Faulted
      end
  | None =>
      if wsReconnect (this r) then
        match timers r with
        | _ :: _ => WaitingToReconnect
        | [] => Idle
        end
      else Stopped
  end.

(** [DesiredSet] is [this.wsEvents]. *)
Definition DesiredSet (r : Runtime) : list string := wsEvents (this r).

(** A replay is in progress: between [connect] and the end of the
    ['open'] listener. *)
Definition replaying (r : Runtime) : bool := initialConnection (this r).

(** The filterable topics. *)
Definition filterable (T : string) : Prop := T = "orderbook" \/ T = "trade".

(** The private topics. *)
Definition private (T : string) : Prop :=
  T = "order" \/ T = "usertrade" \/ T = "wallet" \/ T = "deposit"
  \/ T = "withdrawal" \/ T = "admin".

(** [e] is a key of topic [T] narrowed to a symbol: what [subscribe] reads
    as topic [T] with a non-empty symbol. *)
Definition symbol_scoped (T e : string) : Prop :=
  event_topic e = Some T /\ truthy (event_symbol e) = true.

(** [e] is an entry for topic [T], bare or narrowed. *)
Definition entry_for (T e : string) : Prop := event_topic e = Some T.

(** The text of a wire message as the protocol documents it:
    [{"op":"<op>","args":["<arg>"]}]. *)
Definition wire_text (op arg : string) : string :=
  "{" ++ dquote ++ "op" ++ dquote ++ ":" ++ dquote ++ op ++ dquote ++ ","
      ++ dquote ++ "args" ++ dquote ++ ":[" ++ dquote ++ arg ++ dquote ++ "]}".

(** The part of [s] before its first colon (all of [s] without one), and
    what follows that colon. *)
Fixpoint before_colon (s : string) : string :=
  match s with
  | EmptyString => EmptyString
  | String c s' => if ascii_dec ":" c then EmptyString else String c (before_colon s')
  end.

Fixpoint after_colon (s : string) : option string :=
  match s with
  | EmptyString => None
  | String c s' => if ascii_dec ":" c then Some s' else after_colon s'
  end.

(** A list of keys holds no bare filterable topic together with one of
    its symbol-scoped keys. *)
Definition conflict_free (l : list string) : Prop :=
  forall T e, filterable T -> In T l -> In e l -> ~ symbol_scoped T e.

(** Every list handed to [connect] in a run is conflict free. *)
Definition connects_conflict_free (steps : list Step) : Prop :=
  Forall (fun st => match st with
                    | CallConnect _ events => conflict_free events
                    | _ => True
                    end) steps.

(** What a replay of the set [desired] writes for the key [e]: the
    subscribe message of a known topic, except for a symbol-scoped key
    whose bare topic is in the set too. *)
Definition replay_message (desired : list string) (e : string) : list string :=
  let topic := event_topic e in
  if is_public_topic topic then
    if truthy (event_symbol e) then
      if includes desired (interpolate topic) then []
      else [subscribe_message (interpolate topic ++ ":" ++ interpolate (event_symbol e))]
    else [subscribe_message (interpolate topic)]
  else if is_private_topic_subscribe topic then [subscribe_message (interpolate topic)]
  else [].

Definition replay_plan (desired : list string) : list string :=
  flat_map (replay_message desired) desired.

(** The ways a live session is lost: the transport closes, or the socket
    reports an error while open (the listener closes it, then the close
    arrives). *)
Inductive Failure := TransportClose | TransportError.

(** One failure and reconnect of the live socket [i]: the failure, the
    timer firing at [now], and the new socket [j] opening. *)
Definition cycle_steps (f : Failure) (now : Z) (i j : nat) : list Step :=
  match f with
  | TransportClose => [SocketCloses i; TimerFires now; SocketOpens j]
  | TransportError => [SocketEmits i "error"; SocketCloses i; TimerFires now; SocketOpens j]
  end.

(** Consecutive cycles, the first on socket [i]; each reconnect constructs
    the next socket. *)
Fixpoint cycles_from (i : nat) (fs : list (Failure * Z)) : list Step :=
  match fs with
  | [] => []
  | (f, now) :: fs' => (cycle_steps f now i (S i) ++ cycles_from (S i) fs')%list
  end.


(** The table of a socket on which [connect] has just installed its four
    listeners. *)
Definition fresh_table : EventTable :=
  <["open" := [OnOpen]]>
    (<["close" := [OnClose]]>
       (<["error" := [OnError]]>
          (<["unexpected-response" := [OnUnexpectedResponse]]> ∅))).

(** An event table as [connect] fills it, with listeners of the caller
    behind those of the kit. *)
Definition kit_table (tbl : EventTable) : Prop :=
  (exists ids, tbl !! "error" = Some (OnError :: map CallerListener ids)) /\
  (exists ids, tbl !! "close" = Some (OnClose :: map CallerListener ids)) /\
  (exists ids, tbl !! "open" = Some (OnOpen :: map CallerListener ids)).

(** The instance holds socket [i], the last one constructed, in state
    [rs], sharing the table [t] whose content is [tbl]; it will reconnect
    and no timer is pending. *)
Definition session (rs : ReadyState) (t i : nat) (tbl : EventTable) (r : Runtime) : Prop :=
  ws (this r) = Some i /\
  (exists s, sockets r !! i = Some s /\ readyState s = rs /\ _events s = t) /\
  length (sockets r) = S i /\
  wsReconnect (this r) = true /\
  timers r = [] /\
  tables r !! t = Some tbl.

(** The instance has lost socket [i], kept the table [t], and waits for
    its one reconnect timer. *)
Definition waiting (t i : nat) (tbl : EventTable) (r : Runtime) : Prop :=
  ws (this r) = None /\
  wsEventListeners (this r) = Some t /\
  wsReconnect (this r) = true /\
  timers r = [wsReconnectInterval (this r)] /\
  length (sockets r) = S i /\
  tables r !! t = Some tbl.

(** What writing to a socket leaves alone: where every socket points and
    how far it is, the event tables, the timers. *)
Definition skeleton (r : Runtime) : list (string * ReadyState * nat) * list EventTable * list Z :=
  (map (fun s => (url s, readyState s, _events s)) (sockets r), tables r, timers r).

(** The private topics [unsubscribe] has a [case] for. *)
Definition private_unsubscribable (T : string) : Prop :=
  T = "order" \/ T = "wallet" \/ T = "deposit" \/ T = "withdrawal" \/ T = "admin".

(** A run in which the caller never calls [connect]. *)
Definition no_connect_call (steps : list Step) : Prop :=
  Forall (fun st => match st with CallConnect _ _ => False | _ => True end) steps.

(** A run made of calls of [subscribe] and [unsubscribe] only. *)
Definition edits_only (steps : list Step) : Prop :=
  Forall (fun st => match st with
                    | CallSubscribe _ | CallUnsubscribe _ => True
                    | _ => False
                    end) steps.

(** The configuration the constructor fixes. *)
Definition config (k : HollaExKit) : string * string * option string * option string * Z * string * Z :=
  (apiUrl k, baseUrl k, apiKey k, apiSecret k, apiExpiresAfter k, wsUrl k, wsReconnectInterval k).

(** Everything of the instance except the frames written to its sockets
    and its DesiredSet. *)
Definition connection_view (r : Runtime) :=
  (skeleton r, config (this r), ws (this r), wsReconnect (this r),
   wsEventListeners (this r), initialConnection (this r), heartbeats r, deliveries r).

(** The text of the heartbeat frame: [{"op":"ping"}]. *)
Definition ping_text : string :=
  "{" ++ dquote ++ "op" ++ dquote ++ ":" ++ dquote ++ "ping" ++ dquote ++ "}".

(** A session opened by [connect(events)] and then edited by calls of
    [subscribe] and [unsubscribe]. *)
Definition edited_session (createSignature : string -> string -> string -> Z -> string)
    (opts : Options) (now : Z) (events : list string) (edits : list Step) : Runtime :=
  run createSignature ([CallConnect now events; SocketOpens 0] ++ edits)%list (boot opts).



(** Stand-ins for the examples: options with nothing set, and options
    with credentials; a signature function. *)
Definition no_options : Options := mkOptions None None None None None None.


Definition example_signature (secret verb path : string) (expires : Z) : string :=
  verb ++ path ++ string_of_number expires.

(** Three failures in a row, for the examples. *)
Definition three_failures : list (Failure * Z) :=
  [(TransportClose, 1700000100%Z); (TransportError, 1700000200%Z);
   (TransportClose, 1700000300%Z)].

(** A run that leaves a reconnect timer pending on an open session: the
    first session is lost, and the caller calls [connect] again before the
    timer fires. *)
Definition race_prefix : list Step :=
  [CallConnect 1700000000 ["orderbook"]; SocketOpens 0; SocketCloses 0;
   CallConnect 1700000002 ["orderbook"]; SocketOpens 1].

(** An instance with an open session, reached by [connect(events)]
    followed by the socket opening. *)
Definition opened (events : list string) : Runtime :=
  run example_signature [CallConnect 1700000000 events; SocketOpens 0] (boot no_options).

(** The state between the opening of socket 0 and the call of its
    ['open'] listener, after [connect(events)] on a fresh instance. *)
Definition just_opened (events : list string) : Runtime :=
  (fun r => set_sockets (alter (set_readyState OPEN) 0%nat (sockets r)) r)
    (connect example_signature 1700000000 events (boot no_options)).

(** * Properties *)

(** ** Strings and arrays *)

Lemma includes_In (l : list string) (x : string) : includes l x = true <-> In x l.
Proof.
  unfold includes. rewrite existsb_exists. split.
  - intros (y & Hy & Heq). apply String.eqb_eq in Heq. now subst.
  - intros H. exists x. split; [exact H | apply String.eqb_refl].
Qed.

Lemma includes_false (l : list string) (x : string) : includes l x = false <-> ~ In x l.
Proof.
  rewrite <- includes_In. destruct (includes l x); split; congruence.
Qed.

Lemma uniq_from_In (l seen : list string) (x : string) :
  In x (uniq_from seen l) <-> In x l /\ ~ In x seen.
Proof.
  revert seen. induction l as [|y l IH]; intros seen; simpl.
  - tauto.
  - destruct (includes seen y) eqn:Hy.
    + apply includes_In in Hy. rewrite IH. split.
      * tauto.
      * intros [[-> | H] Hn]; tauto.
    + apply includes_false in Hy. simpl. rewrite IH. simpl. split.
      * intros [-> | [H Hn]]; [tauto |]. split; [tauto |]. intros Hs. apply Hn. now right.
      * intros [[-> | H] Hn]; [now left |].
        destruct (string_dec y x) as [-> | Hne]; [now left |]. right. split; [exact H |].
        intros [Heq | Hs]; [congruence | tauto].
Qed.

Lemma union_In (a b : list string) (x : string) : In x (union a b) <-> In x a \/ In x b.
Proof.
  unfold union. rewrite uniq_from_In, in_app_iff. simpl. tauto.
Qed.

Lemma append_cons (c : ascii) (a b : string) : String c a ++ b = String c (a ++ b).
Proof. reflexivity. Qed.

Lemma append_nil (b : string) : EmptyString ++ b = b.
Proof. reflexivity. Qed.

(** Concatenations with a literal on the left, pushed inwards. *)
Ltac push_append := rewrite ?append_cons, ?append_nil in *.

Lemma prefix_app (p q : string) : String.prefix p (p ++ q) = true.
Proof.
  induction p as [|c p IH]; push_append; simpl.
  - now destruct q.
  - destruct (ascii_dec c c); [exact IH | congruence].
Qed.

Lemma str_includes_prefix (p q : string) : str_includes (p ++ q) p = true.
Proof.
  pose proof (prefix_app p q) as H.
  destruct (p ++ q); cbn [str_includes]; rewrite H; reflexivity.
Qed.

Lemma string_app_assoc (a b c : string) : (a ++ b) ++ c = a ++ (b ++ c).
Proof. induction a as [|x a IH]; push_append; [reflexivity | now rewrite IH]. Qed.

Lemma string_app_nil_r (a : string) : a ++ EmptyString = a.
Proof. induction a as [|x a IH]; push_append; [reflexivity | now rewrite IH]. Qed.

Lemma length_append (a b : string) :
  String.length (a ++ b) = String.length a + String.length b.
Proof. induction a as [|x a IH]; push_append; simpl; [reflexivity | now rewrite IH]. Qed.

(** [split(':')] cuts at the first colon and goes on behind it. *)
Lemma split_from_colon (e cur : string) :
  split_from ":" cur e 0 =
  (cur ++ before_colon e) ::
  match after_colon e with
  | Some rest => split_from ":" EmptyString rest 0
  | None => []
  end.
Proof.
  revert cur. induction e as [|c e IH]; intros cur;
    cbn [split_from before_colon after_colon String.prefix String.length Nat.sub].
  - now rewrite string_app_nil_r.
  - destruct (ascii_dec ":" c) as [<- | Hne].
    + rewrite string_app_nil_r. now destruct e.
    + rewrite IH, string_app_assoc. reflexivity.
Qed.

Lemma split_from_nonempty (e cur : string) : split_from ":" cur e 0 <> [].
Proof. rewrite split_from_colon. discriminate. Qed.

Lemma event_topic_eq (e : string) : event_topic e = Some (before_colon e).
Proof. unfold event_topic, split. now rewrite split_from_colon. Qed.

Lemma event_symbol_eq (e : string) : event_symbol e = before_colon <$> after_colon e.
Proof.
  unfold event_symbol, split. rewrite split_from_colon. simpl.
  destruct (after_colon e) as [rest|]; simpl; [| reflexivity].
  now rewrite split_from_colon.
Qed.

Lemma before_after_colon (e rest : string) :
  after_colon e = Some rest -> e = before_colon e ++ ":" ++ rest.
Proof.
  induction e as [|c e IH]; cbn [before_colon after_colon]; [discriminate |].
  destruct (ascii_dec ":" c) as [<- | Hne].
  - intros [= ->]. reflexivity.
  - intros H. push_append. f_equal. now apply IH.
Qed.

Lemma before_colon_whole (e : string) : after_colon e = None -> before_colon e = e.
Proof.
  induction e as [|c e IH]; cbn [before_colon after_colon]; [reflexivity |].
  destruct (ascii_dec ":" c); [discriminate |]. intros H. now rewrite IH.
Qed.

(** The entries of a topic: the bare key, or a string that starts with
    the topic and a colon. *)
Lemma entry_for_cases (T e : string) :
  entry_for T e -> e = T \/ exists rest, e = T ++ ":" ++ rest.
Proof.
  unfold entry_for. rewrite event_topic_eq. intros [= <-].
  destruct (after_colon e) as [rest|] eqn:E.
  - right. exists rest. now apply before_after_colon.
  - left. symmetry. now apply before_colon_whole.
Qed.

Lemma symbol_scoped_entry (T e : string) : symbol_scoped T e -> entry_for T e.
Proof. now intros [H _]. Qed.

Lemma symbol_scoped_not_bare (T e : string) : symbol_scoped T e -> e <> T.
Proof.
  intros [Ht Hs] ->. rewrite event_topic_eq in Ht. rewrite event_symbol_eq in Hs.
  injection Ht as Ht.
  destruct (after_colon T) as [rest|] eqn:E; [| discriminate].
  apply before_after_colon in E. rewrite Ht in E.
  assert (String.length T = String.length (T ++ ":" ++ rest)) as Hl by now rewrite <- E.
  rewrite length_append in Hl. simpl in Hl. lia.
Qed.

Lemma symbol_scoped_includes (T e : string) :
  symbol_scoped T e -> str_includes e (T ++ ":") = true.
Proof.
  intros [Ht Hs]. rewrite event_topic_eq in Ht. rewrite event_symbol_eq in Hs.
  injection Ht as Ht.
  destruct (after_colon e) as [rest|] eqn:E; [| discriminate].
  apply before_after_colon in E. rewrite Ht in E. rewrite E.
  rewrite <- string_app_assoc. apply str_includes_prefix.
Qed.

(** A key [T:sym] whose symbol is not empty and does not begin with a
    colon is symbol-scoped, for a topic without colon. *)
Lemma scoped_key (T : string) (c : ascii) (rest : string) :
  after_colon T = None -> c <> ":"%char ->
  event_topic (T ++ ":" ++ String c rest) = Some T /\
  event_symbol (T ++ ":" ++ String c rest) = Some (before_colon (String c rest)) /\
  truthy (event_symbol (T ++ ":" ++ String c rest)) = true.
Proof.
  intros HT Hc.
  assert (forall sfx, before_colon (T ++ ":" ++ sfx) = T /\ after_colon (T ++ ":" ++ sfx) = Some sfx) as H.
  { intros sfx. induction T as [|x T IH]; push_append;
      cbn [before_colon after_colon] in *.
    - destruct (ascii_dec ":" ":"); [now split | congruence].
    - destruct (ascii_dec ":" x); [discriminate |].
      destruct (IH HT) as [-> ->]. now split. }
  destruct (H (String c rest)) as [Hb Ha].
  rewrite event_topic_eq, event_symbol_eq, Hb, Ha.
  cbn [fmap option_fmap option_map before_colon truthy].
  destruct (ascii_dec ":" c); [congruence |]. repeat split; reflexivity.
Qed.

Lemma suffixed_key (T sfx : string) :
  after_colon T = None ->
  event_topic (T ++ ":" ++ sfx) = Some T.
Proof.
  intros HT. rewrite event_topic_eq. f_equal.
  induction T as [|x T IH]; push_append; cbn [before_colon after_colon] in *.
  - now destruct (ascii_dec ":" ":").
  - destruct (ascii_dec ":" x); [discriminate |]. now rewrite IH.
Qed.

Lemma bare_key (T : string) :
  after_colon T = None -> event_topic T = Some T /\ event_symbol T = None.
Proof.
  intros HT. rewrite event_topic_eq, event_symbol_eq, HT. simpl.
  now rewrite before_colon_whole.
Qed.

Lemma filterable_no_colon (T : string) : filterable T -> after_colon T = None.
Proof. intros [-> | ->]; reflexivity. Qed.

Lemma private_no_colon (T : string) : private T -> after_colon T = None.
Proof. intros [-> | [-> | [-> | [-> | [-> | ->]]]]]; reflexivity. Qed.

Lemma filterable_public (T : string) : filterable T -> is_public_topic (Some T) = true.
Proof. intros [-> | ->]; reflexivity. Qed.

Lemma private_cases (T : string) :
  private T ->
  is_public_topic (Some T) = false /\ is_private_topic_subscribe (Some T) = true.
Proof. intros [-> | [-> | [-> | [-> | [-> | ->]]]]]; split; reflexivity. Qed.

Lemma is_public_topic_filterable (T : string) :
  is_public_topic (Some T) = true -> filterable T.
Proof.
  unfold is_public_topic, filterable. intros H. apply orb_prop in H.
  destruct H as [H | H]; apply bool_decide_eq_true in H; injection H as ->; tauto.
Qed.

(** ** Sockets and assignments *)

Lemma this_ws_send (m : string) (r : Runtime) : this (ws_send m r) = this r.
Proof. unfold ws_send. now destruct (ws (this r)). Qed.

Lemma wsConnected_socket (r : Runtime) :
  wsConnected r = true ->
  exists i s, ws (this r) = Some i /\ sockets r !! i = Some s /\ readyState s = OPEN.
Proof.
  unfold wsConnected, current_socket. destruct (ws (this r)) as [i|]; simpl; [| discriminate].
  destruct (sockets r !! i) as [s|] eqn:E; [| discriminate].
  destruct (readyState s) eqn:R; try discriminate. intros _. now exists i, s.
Qed.

Lemma sent_ws_send (m : string) (r : Runtime) :
  wsConnected r = true -> sent (ws_send m r) = (sent r ++ [m])%list.
Proof.
  intros H. destruct (wsConnected_socket r H) as (i & s & Hi & Hs & _).
  unfold sent, current_socket, ws_send. rewrite Hi. simpl. rewrite Hi. simpl.
  rewrite list_lookup_alter_eq, Hs. reflexivity.
Qed.

Lemma wsConnected_ws_send (m : string) (r : Runtime) :
  wsConnected (ws_send m r) = wsConnected r.
Proof.
  unfold wsConnected, current_socket, ws_send.
  destruct (ws (this r)) as [i|] eqn:Hi; simpl; rewrite ?Hi; simpl; [| reflexivity].
  rewrite list_lookup_alter_eq. now destruct (sockets r !! i).
Qed.

Lemma sent_set_wsEvents (l : list string) (r : Runtime) :
  sent (assign (set_wsEvents l) r) = sent r.
Proof. reflexivity. Qed.

Lemma wsConnected_set_wsEvents (l : list string) (r : Runtime) :
  wsConnected (assign (set_wsEvents l) r) = wsConnected r.
Proof. reflexivity. Qed.

(** The messages of the known topics carry the documented text. *)
Lemma subscribe_message_filterable (T : string) :
  filterable T -> subscribe_message T = wire_text "subscribe" T.
Proof. intros [-> | ->]; reflexivity. Qed.

Lemma subscribe_message_private (T : string) :
  private T -> subscribe_message T = wire_text "subscribe" T.
Proof. intros [-> | [-> | [-> | [-> | [-> | ->]]]]]; reflexivity. Qed.

(** ** Bare-key dominance *)

(** A bare filterable topic that is not yet desired: one message, the
    keys that contain [T:] dropped, the bare key added. *)
Lemma subscribe_event_bare (r : Runtime) (T : string) :
  filterable T -> replaying r = false -> ~ In T (DesiredSet r) ->
  subscribe_event T r =
  assign (set_wsEvents
            (union (List.filter (fun e => negb (str_includes e (T ++ ":"))) (wsEvents (this r))) [T]))
         (ws_send (subscribe_message T) r).
Proof.
  intros HT Hrep Hnot. unfold replaying in Hrep. unfold DesiredSet in Hnot.
  apply includes_false in Hnot.
  destruct (bare_key T (filterable_no_colon T HT)) as [Ht Hs].
  unfold subscribe_event.
  rewrite Hnot, Hrep, Ht, Hs, (filterable_public T HT). cbn [negb orb truthy interpolate].
  rewrite this_ws_send, Hrep. reflexivity.
Qed.

(** A symbol-scoped request under its bare key changes nothing. *)
Lemma subscribe_event_dominated (r : Runtime) (T : string) (c : ascii) (rest : string) :
  filterable T -> replaying r = false -> c <> ":"%char -> In T (DesiredSet r) ->
  subscribe_event (T ++ ":" ++ String c rest) r = r.
Proof.
  intros HT Hrep Hc Hin. unfold replaying in Hrep. unfold DesiredSet in Hin.
  apply includes_In in Hin.
  destruct (scoped_key T c rest (filterable_no_colon T HT) Hc) as (Ht & _ & Hs).
  unfold subscribe_event. rewrite Hrep, orb_false_r.
  destruct (includes (wsEvents (this r)) (T ++ ":" ++ String c rest)); [reflexivity |].
  cbn [negb]. rewrite Ht, Hs, (filterable_public T HT). cbn [interpolate].
  rewrite Hin. reflexivity.
Qed.

(** A key that is already desired is skipped outside a replay. *)
Lemma subscribe_event_present (r : Runtime) (e : string) :
  replaying r = false -> In e (DesiredSet r) -> subscribe_event e r = r.
Proof.
  intros Hrep Hin. unfold replaying in Hrep. apply includes_In in Hin.
  unfold subscribe_event, DesiredSet in *. now rewrite Hin, Hrep.
Qed.

(** C1, as amended.  In a connected state outside a replay, for a
    filterable topic [T]: a request for [T:symbol] (symbol not empty, not
    starting with a colon) while the bare key [T] is desired writes nothing
    and changes nothing; a request for the bare [T] that is not yet desired
    writes the subscribe message of [T], drops every symbol-scoped key of
    [T], adds [T], and leaves [T] as the only entry for [T]; a request for
    a bare [T] that is already desired writes nothing and changes
    nothing. *)
Theorem C1_bare_key_dominance (r : Runtime) (T : string) :
  filterable T -> wsConnected r = true -> replaying r = false ->
  (forall (c : ascii) (rest : string),
      c <> ":"%char -> In T (DesiredSet r) ->
      subscribe [T ++ ":" ++ String c rest] r = (Normal, r)) /\
  (~ In T (DesiredSet r) ->
   exists r',
     subscribe [T] r = (Normal, r') /\
     sent r' = (sent r ++ [wire_text "subscribe" T])%list /\
     In T (DesiredSet r') /\
     (forall e, symbol_scoped T e -> ~ In e (DesiredSet r')) /\
     (forall e, In e (DesiredSet r') -> entry_for T e -> e = T) /\
     (forall e, In e (DesiredSet r') -> e = T \/ In e (DesiredSet r))) /\
  (In T (DesiredSet r) -> subscribe [T] r = (Normal, r)).
Proof.
  intros HT Hconn Hrep. split; [| split].
  - intros c rest Hc Hin. unfold subscribe. rewrite Hconn. cbn [each foldl].
    now rewrite subscribe_event_dominated.
  - intros Hnot. eexists. split.
    { unfold subscribe. rewrite Hconn. cbn [each foldl].
      rewrite subscribe_event_bare by assumption. reflexivity. }
    assert (forall e,
               In e (DesiredSet (assign (set_wsEvents
                  (union (List.filter (fun e => negb (str_includes e (T ++ ":")))
                                      (wsEvents (this r))) [T]))
                  (ws_send (subscribe_message T) r)))
               <-> (In e (DesiredSet r) /\ str_includes e (T ++ ":") = false) \/ e = T) as Hmem.
    { intros e. unfold DesiredSet. cbn [assign this set_wsEvents wsEvents].
      rewrite union_In, filter_In, negb_true_iff. simpl. intuition. }
    split; [| split; [| split; [| split]]].
    + rewrite sent_set_wsEvents, sent_ws_send by assumption.
      now rewrite subscribe_message_filterable.
    + apply Hmem. now right.
    + intros e Hsc Hin. apply Hmem in Hin. destruct Hin as [[_ Hno] | ->].
      * rewrite symbol_scoped_includes in Hno by assumption. discriminate.
      * now apply (symbol_scoped_not_bare T T).
    + intros e Hin Hent. apply Hmem in Hin. destruct Hin as [[_ Hno] | ->]; [| reflexivity].
      destruct (entry_for_cases T e Hent) as [-> | [rest ->]]; [reflexivity |].
      rewrite <- string_app_assoc, str_includes_prefix in Hno. discriminate.
    + intros e Hin. apply Hmem in Hin. tauto.
  - intros Hin. unfold subscribe. rewrite Hconn. cbn [each foldl].
    now rewrite subscribe_event_present.
Qed.

Lemma opened_orderbook_connected :
  wsConnected (opened ["orderbook"]) = true /\ replaying (opened ["orderbook"]) = false.
Proof. vm_compute. split; reflexivity. Qed.

Lemma C1_bare_key_dominance_witness :
  (forall (c : ascii) (rest : string),
      c <> ":"%char -> In "orderbook" (DesiredSet (opened ["orderbook"])) ->
      subscribe ["orderbook" ++ ":" ++ String c rest] (opened ["orderbook"])
      = (Normal, opened ["orderbook"])) /\
  (~ In "trade" (DesiredSet (opened ["trade:xht-usdt"])) ->
   exists r',
     subscribe ["trade"] (opened ["trade:xht-usdt"]) = (Normal, r') /\
     sent r' = (sent (opened ["trade:xht-usdt"]) ++ [wire_text "subscribe" "trade"])%list /\
     In "trade" (DesiredSet r')).
Proof.
  split.
  - apply (C1_bare_key_dominance (opened ["orderbook"]) "orderbook").
    + left; reflexivity.
    + vm_compute; reflexivity.
    + vm_compute; reflexivity.
  - intros Hnot.
    assert (filterable "trade") as HT by (right; reflexivity).
    assert (wsConnected (opened ["trade:xht-usdt"]) = true) as Hc by (vm_compute; reflexivity).
    assert (replaying (opened ["trade:xht-usdt"]) = false) as Hr by (vm_compute; reflexivity).
    destruct (C1_bare_key_dominance (opened ["trade:xht-usdt"]) "trade" HT Hc Hr) as (_ & H & _).
    destruct (H Hnot) as (r' & H1 & H2 & H3 & _). exists r'. auto.
Defined.

(** C1 as stated fails where the bare key is already desired: the request
    for the bare topic writes nothing. *)
Lemma C1_bare_resubscribe_is_silent :
  filterable "orderbook" /\
  wsConnected (opened ["orderbook"]) = true /\
  replaying (opened ["orderbook"]) = false /\
  sent (snd (subscribe ["orderbook"] (opened ["orderbook"]))) = sent (opened ["orderbook"]) /\
  sent (snd (subscribe ["orderbook"] (opened ["orderbook"])))
  <> (sent (opened ["orderbook"]) ++ [wire_text "subscribe" "orderbook"])%list.
Proof.
  split; [left; reflexivity |].
  vm_compute. repeat split; discriminate.
Qed.

(** ** Private topics with a suffix *)

(** A private topic, with or without suffix, that is not yet desired:
    the message names the topic alone, the set records the whole key. *)
Lemma subscribe_event_private (r : Runtime) (T e : string) :
  private T -> event_topic e = Some T -> replaying r = false -> ~ In e (DesiredSet r) ->
  subscribe_event e r =
  assign (set_wsEvents (union (wsEvents (this r)) [e])) (ws_send (subscribe_message T) r).
Proof.
  intros HT Ht Hrep Hnot. unfold replaying in Hrep. unfold DesiredSet in Hnot.
  apply includes_false in Hnot. destruct (private_cases T HT) as [Hpub Hpriv].
  unfold subscribe_event. rewrite Hnot, Hrep, Ht, Hpub, Hpriv. cbn [negb orb interpolate].
  rewrite this_ws_send, Hrep. reflexivity.
Qed.

Lemma suffixed_not_bare (T suffix : string) : T ++ ":" ++ suffix <> T.
Proof.
  intros H. assert (String.length (T ++ ":" ++ suffix) = String.length T) as Hl by now rewrite H.
  rewrite length_append in Hl. simpl in Hl. lia.
Qed.

(** C10, as amended.  In a connected state outside a replay, for a private
    topic [T] and a key [T:suffix] that is not desired: [subscribe] writes
    the subscribe message of the bare [T] and adds the whole key
    [T:suffix]; it does not add the bare key [T]; so, when [T] itself is
    not desired, a later [subscribe([T])] is not suppressed and writes the
    same message a second time. *)
Theorem C10_private_suffix_kept (r : Runtime) (T suffix : string) :
  private T -> wsConnected r = true -> replaying r = false ->
  ~ In (T ++ ":" ++ suffix) (DesiredSet r) ->
  exists r',
    subscribe [T ++ ":" ++ suffix] r = (Normal, r') /\
    sent r' = (sent r ++ [wire_text "subscribe" T])%list /\
    (forall e, In e (DesiredSet r') <-> In e (DesiredSet r) \/ e = T ++ ":" ++ suffix) /\
    (In T (DesiredSet r') <-> In T (DesiredSet r)) /\
    (~ In T (DesiredSet r) ->
     exists r'',
       subscribe [T] r' = (Normal, r'') /\
       sent r'' = (sent r ++ [wire_text "subscribe" T; wire_text "subscribe" T])%list).
Proof.
  intros HT Hconn Hrep Hnot.
  pose proof (suffixed_key T suffix (private_no_colon T HT)) as Ht.
  set (r' := assign (set_wsEvents (union (wsEvents (this r)) [T ++ ":" ++ suffix]))
                    (ws_send (subscribe_message T) r)).
  assert (forall e, In e (DesiredSet r') <-> In e (DesiredSet r) \/ e = T ++ ":" ++ suffix) as Hmem.
  { intros e. unfold r', DesiredSet. cbn [assign this set_wsEvents wsEvents].
    rewrite union_In. simpl. intuition. }
  assert (sent r' = (sent r ++ [wire_text "subscribe" T])%list) as Hsent.
  { unfold r'. rewrite sent_set_wsEvents, sent_ws_send by assumption.
    now rewrite subscribe_message_private. }
  assert (In T (DesiredSet r') <-> In T (DesiredSet r)) as Hbare.
  { rewrite Hmem. split; [| tauto]. intros [H | H]; [exact H |].
    symmetry in H. now apply suffixed_not_bare in H. }
  exists r'. split; [| split; [| split; [| split]]]; try assumption.
  - unfold subscribe. rewrite Hconn. cbn [each foldl].
    now rewrite (subscribe_event_private r T) by assumption.
  - intros HnT.
    assert (wsConnected r' = true) as Hconn'.
    { unfold r'. now rewrite wsConnected_set_wsEvents, wsConnected_ws_send. }
    assert (replaying r' = false) as Hrep'.
    { unfold r', replaying. cbn [assign this set_wsEvents initialConnection].
      now rewrite this_ws_send. }
    eexists. split.
    + unfold subscribe. rewrite Hconn'. cbn [each foldl].
      rewrite (subscribe_event_private r' T T); try assumption.
      * reflexivity.
      * now apply bare_key, private_no_colon.
      * now rewrite Hbare.
    + rewrite sent_set_wsEvents, sent_ws_send, Hsent by assumption.
      rewrite <- app_assoc. now rewrite subscribe_message_private.
Qed.

Lemma C10_private_suffix_kept_witness :
  exists r',
    subscribe ["order" ++ ":" ++ "42"] (opened ["wallet"]) = (Normal, r') /\
    sent r' = (sent (opened ["wallet"]) ++ [wire_text "subscribe" "order"])%list.
Proof.
  assert (private "order") as HT by (left; reflexivity).
  assert (wsConnected (opened ["wallet"]) = true) as Hc by (vm_compute; reflexivity).
  assert (replaying (opened ["wallet"]) = false) as Hr by (vm_compute; reflexivity).
  assert (~ In ("order" ++ ":" ++ "42") (DesiredSet (opened ["wallet"]))) as Hn.
  { vm_compute. intros [H | []]. discriminate H. }
  destruct (C10_private_suffix_kept (opened ["wallet"]) "order" "42" HT Hc Hr Hn)
    as (r' & H1 & H2 & _).
  exists r'. split; assumption.
Defined.

(** C10 as stated fails where the bare key is desired already: the later
    request for the bare topic is suppressed. *)
Lemma C10_later_bare_request_suppressed :
  private "order" /\
  wsConnected (opened ["order"]) = true /\
  replaying (opened ["order"]) = false /\
  ~ In "order:42" (DesiredSet (opened ["order"])) /\
  sent (snd (subscribe ["order"] (snd (subscribe ["order:42"] (opened ["order"])))))
  = sent (snd (subscribe ["order:42"] (opened ["order"]))).
Proof.
  split; [left; reflexivity |].
  vm_compute. repeat split. intros [H | []]. discriminate H.
Qed.

(** ** [unsubscribe] *)

(** [unsubscribe] has no [case 'usertrade']: the key falls to [default]. *)
Lemma unsubscribe_event_usertrade (r : Runtime) (e : string) :
  event_topic e = Some "usertrade" -> unsubscribe_event e r = r.
Proof.
  intros Ht. unfold unsubscribe_event. rewrite Ht.
  now destruct (includes (wsEvents (this r)) e).
Qed.

(** C2 at the input where the code departs from it: with [usertrade]
    desired on an open session, [unsubscribe(['usertrade'])] returns
    normally, writes nothing, and the key stays desired; [subscribe] had
    written the subscribe message for it. *)
Theorem C2_unsubscribe_usertrade_ignored :
  wsConnected (opened ["usertrade"]) = true /\
  In "usertrade" (DesiredSet (opened ["usertrade"])) /\
  sent (opened ["usertrade"]) = [wire_text "subscribe" "usertrade"] /\
  unsubscribe ["usertrade"] (opened ["usertrade"]) = (Normal, opened ["usertrade"]).
Proof.
  split; [vm_compute; reflexivity |]. split; [vm_compute; left; reflexivity |].
  split; [vm_compute; reflexivity |].
  unfold unsubscribe.
  replace (wsConnected (opened ["usertrade"])) with true by (vm_compute; reflexivity).
  cbn [each foldl]. now rewrite unsubscribe_event_usertrade.
Qed.

(** ** Gating on the connection *)

Lemma wsConnected_state (r : Runtime) : wsConnected r = true <-> connection_state r = Open.
Proof.
  unfold wsConnected, connection_state.
  destruct (current_socket r) as [s|].
  - destruct (readyState s); split; congruence.
  - destruct (wsReconnect (this r)); [destruct (timers r) |]; split; congruence.
Qed.

(** C3, as amended.  [disconnect], [subscribe] and [unsubscribe] return
    normally in the Open state only; [disconnect] then turns
    [wsReconnect] off and starts closing the socket.  In every other
    state, Connecting included, each of the three throws
    [Error('Websocket not connected')] and leaves the instance, its
    DesiredSet included, as it was. *)
Theorem C3_gating (r : Runtime) (events : list string) :
  match connection_state r with
  | Open =>
      fst (disconnect r) = Normal /\
      wsReconnect (this (snd (disconnect r))) = false /\
      connection_state (snd (disconnect r)) = Closing /\
      fst (subscribe events r) = Normal /\
      fst (unsubscribe events r) = Normal
  | _ =>
      disconnect r = (Throw not_connected, r) /\
      subscribe events r = (Throw not_connected, r) /\
      unsubscribe events r = (Throw not_connected, r)
  end.
Proof.
  destruct (connection_state r) eqn:E;
    try (assert (wsConnected r = false) as Hc
           by (destruct (wsConnected r) eqn:W; [apply wsConnected_state in W; congruence | reflexivity]);
         unfold disconnect, subscribe, unsubscribe; rewrite Hc; now repeat split).
  assert (wsConnected r = true) as Hc by now apply wsConnected_state.
  destruct (wsConnected_socket r Hc) as (i & s & Hi & Hs & Hr).
  unfold disconnect, subscribe, unsubscribe. rewrite Hc. cbn [fst snd].
  split; [reflexivity |]. split; [| split; [| split; reflexivity]].
  - unfold ws_close. cbn [assign this set_wsReconnect ws]. rewrite Hi. reflexivity.
  - unfold connection_state, current_socket, ws_close.
    cbn [assign this set_wsReconnect ws sockets set_sockets]. rewrite Hi.
    cbn [assign this set_wsReconnect ws sockets set_sockets]. rewrite Hi.
    cbn [mbind option_bind]. rewrite list_lookup_alter_eq, Hs.
    cbn [fmap option_fmap option_map]. rewrite Hr. reflexivity.
Qed.

(** C3 as stated fails in the Connecting state: [disconnect] throws
    between the call of [connect] and the opening of the socket. *)
Lemma C3_disconnect_while_connecting_throws :
  connection_state (connect example_signature 1700000000 ["orderbook"] (boot no_options))
  = Connecting /\
  disconnect (connect example_signature 1700000000 ["orderbook"] (boot no_options))
  = (Throw not_connected,
     connect example_signature 1700000000 ["orderbook"] (boot no_options)).
Proof. split; [vm_compute; reflexivity |]. unfold disconnect.
  replace (wsConnected _) with false by (vm_compute; reflexivity). reflexivity.
Qed.

(** ** Replay when a session opens *)

(** During a replay the callback of [subscribe] only writes: the message
    of [replay_message], or nothing. *)
Lemma subscribe_event_replaying (r : Runtime) (e : string) :
  replaying r = true -> wsConnected r = true ->
  this (subscribe_event e r) = this r /\
  wsConnected (subscribe_event e r) = true /\
  sent (subscribe_event e r) = (sent r ++ replay_message (wsEvents (this r)) e)%list.
Proof.
  intros Hrep Hconn. unfold replaying in Hrep.
  unfold subscribe_event, replay_message. rewrite Hrep, orb_true_r.
  destruct (is_public_topic (event_topic e)).
  - destruct (truthy (event_symbol e)).
    + destruct (includes (wsEvents (this r)) (interpolate (event_topic e))); cbn [negb].
      * now rewrite app_nil_r.
      * rewrite this_ws_send, Hrep. cbn [negb].
        now rewrite this_ws_send, wsConnected_ws_send, sent_ws_send.
    + rewrite this_ws_send, Hrep. cbn [negb].
      now rewrite this_ws_send, wsConnected_ws_send, sent_ws_send.
  - destruct (is_private_topic_subscribe (event_topic e)).
    + rewrite this_ws_send, Hrep. cbn [negb].
      now rewrite this_ws_send, wsConnected_ws_send, sent_ws_send.
    + now rewrite app_nil_r.
Qed.

Lemma each_subscribe_replaying (events : list string) (r : Runtime) :
  replaying r = true -> wsConnected r = true ->
  this (each events subscribe_event r) = this r /\
  wsConnected (each events subscribe_event r) = true /\
  sent (each events subscribe_event r)
  = (sent r ++ flat_map (replay_message (wsEvents (this r))) events)%list.
Proof.
  revert r. induction events as [|e events IH]; intros r Hrep Hconn; cbn [each foldl flat_map].
  - now rewrite app_nil_r.
  - destruct (subscribe_event_replaying r e Hrep Hconn) as (Ht & Hc & Hs).
    assert (replaying (subscribe_event e r) = true) as Hrep' by (unfold replaying; now rewrite Ht).
    destruct (IH (subscribe_event e r) Hrep' Hc) as (Ht' & Hc' & Hs').
    unfold each in *. rewrite Ht', Hc', Hs', Hs, Ht, app_assoc. auto.
Qed.

(** What the ['open'] listener does on the socket that has just opened. *)
Lemma on_open_replay (r : Runtime) :
  wsConnected r = true -> replaying r = true ->
  exists r',
    on_open r = (Normal, r') /\
    this r' = set_initialConnection false (this r) /\
    sent r' = (sent r ++ replay_plan (DesiredSet r))%list /\
    wsConnected r' = true.
Proof.
  intros Hconn Hrep.
  destruct (each_subscribe_replaying (wsEvents (this r)) r Hrep Hconn) as (Ht & Hc & Hs).
  destruct (wsConnected_socket r Hconn) as (i & s & Hi & _).
  assert (exists r1, (if (0 <? length (wsEvents (this r)))%nat
                      then subscribe (wsEvents (this r)) r else (Normal, r)) = (Normal, r1)
                     /\ this r1 = this r /\ wsConnected r1 = true
                     /\ sent r1 = (sent r ++ replay_plan (DesiredSet r))%list) as (r1 & E & Ht1 & Hc1 & Hs1).
  { destruct (0 <? length (wsEvents (this r)))%nat eqn:L.
    - unfold subscribe. rewrite Hconn. eexists. split; [reflexivity |]. auto.
    - exists r. split; [reflexivity |]. repeat split; try assumption.
      apply Nat.ltb_ge in L. unfold replay_plan, DesiredSet.
      destruct (wsEvents (this r)); [now rewrite app_nil_r | simpl in L; lia]. }
  unfold on_open. rewrite E. cbn [assign this set_initialConnection ws].
  rewrite Ht1, Hi. eexists. split; [reflexivity |].
  split; [now rewrite <- Ht1 |]. split; [exact Hs1 | exact Hc1].
Qed.

(** C6, as amended.  When the ['open'] listener runs on the opened socket
    with a replay pending (after [connect], by the caller or by the
    reconnect timer), it returns normally, leaves DesiredSet as it was and
    ends the replay.  It writes, in the order of the set, the subscribe
    message of every key whose topic is known, desired already or not,
    except that a symbol-scoped key of a filterable topic is passed over
    when the bare topic is in the set too; keys of unknown topics write
    nothing. *)
Theorem C6_replay_on_open (r : Runtime) :
  wsConnected r = true -> replaying r = true ->
  exists r',
    on_open r = (Normal, r') /\
    DesiredSet r' = DesiredSet r /\
    replaying r' = false /\
    sent r' = (sent r ++ replay_plan (DesiredSet r))%list /\
    (forall T, filterable T \/ private T -> In T (DesiredSet r) ->
               In (wire_text "subscribe" T) (sent r')) /\
    (forall T c rest, filterable T -> c <> ":"%char ->
               In (T ++ ":" ++ String c rest) (DesiredSet r) ->
               ~ In T (DesiredSet r) ->
               In (subscribe_message (T ++ ":" ++ before_colon (String c rest))) (sent r')) /\
    (forall T c rest, filterable T -> c <> ":"%char -> In T (DesiredSet r) ->
               replay_message (DesiredSet r) (T ++ ":" ++ String c rest) = []).
Proof.
  intros Hconn Hrep. destruct (on_open_replay r Hconn Hrep) as (r' & E & Ht & Hs & _).
  exists r'. split; [exact E |].
  split; [unfold DesiredSet; now rewrite Ht |].
  split; [unfold replaying; now rewrite Ht |].
  split; [exact Hs |]. split; [| split].
  - intros T HT Hin. rewrite Hs. apply in_or_app. right.
    unfold replay_plan. apply in_flat_map. exists T. split; [exact Hin |].
    unfold replay_message. destruct HT as [HT | HT].
    + destruct (bare_key T (filterable_no_colon T HT)) as [-> ->].
      rewrite (filterable_public T HT). cbn [truthy interpolate].
      rewrite subscribe_message_filterable by assumption. now left.
    + destruct (bare_key T (private_no_colon T HT)) as [-> _].
      destruct (private_cases T HT) as [-> ->]. cbn [interpolate].
      rewrite subscribe_message_private by assumption. now left.
  - intros T c rest HT Hc Hin Hnot. rewrite Hs. apply in_or_app. right.
    unfold replay_plan. apply in_flat_map. exists (T ++ ":" ++ String c rest).
    split; [exact Hin |]. unfold replay_message.
    destruct (scoped_key T c rest (filterable_no_colon T HT) Hc) as (Ht' & Hsym & Htr).
    rewrite Ht', Htr, Hsym, (filterable_public T HT). cbn [interpolate].
    apply includes_false in Hnot. unfold DesiredSet in *. rewrite Hnot. now left.
  - intros T c rest HT Hc Hin. unfold replay_message.
    destruct (scoped_key T c rest (filterable_no_colon T HT) Hc) as (Ht' & Hsym & Htr).
    rewrite Ht', Htr, (filterable_public T HT). cbn [interpolate].
    apply includes_In in Hin. unfold DesiredSet in *. now rewrite Hin.
Qed.

Lemma C6_replay_on_open_witness :
  exists r',
    on_open (just_opened ["order"; "wallet"]) = (Normal, r') /\
    DesiredSet r' = ["order"; "wallet"] /\
    sent r' = [wire_text "subscribe" "order"; wire_text "subscribe" "wallet"].
Proof.
  assert (wsConnected (just_opened ["order"; "wallet"]) = true) as Hc by (vm_compute; reflexivity).
  assert (replaying (just_opened ["order"; "wallet"]) = true) as Hr by (vm_compute; reflexivity).
  destruct (C6_replay_on_open (just_opened ["order"; "wallet"]) Hc Hr)
    as (r' & H1 & H2 & _ & H4 & _).
  exists r'. split; [exact H1 |]. split; [rewrite H2; vm_compute; reflexivity |].
  rewrite H4. vm_compute. reflexivity.
Defined.

(** C6 as stated fails on a replay set that holds a bare filterable topic
    and one of its symbols: the symbol-scoped key writes no message. *)
Lemma C6_scoped_key_not_replayed :
  In "orderbook:xht-usdt" (DesiredSet (opened ["orderbook"; "orderbook:xht-usdt"])) /\
  sent (opened ["orderbook"; "orderbook:xht-usdt"]) = [wire_text "subscribe" "orderbook"] /\
  ~ In (subscribe_message "orderbook:xht-usdt")
       (sent (opened ["orderbook"; "orderbook:xht-usdt"])).
Proof.
  vm_compute. split; [right; left; reflexivity |]. split; [reflexivity |].
  intros [H | []]. discriminate H.
Qed.

(** ** [connect] *)

Section ConnectProperties.

Variable createSignature : string -> string -> string -> Z -> string.

Lemma current_socket_ws_on (name : string) (l : Listener) (r : Runtime) :
  current_socket (ws_on name l r) = current_socket r.
Proof. unfold ws_on. destruct (current_socket r) eqn:E; exact E. Qed.

Lemma this_ws_on (name : string) (l : Listener) (r : Runtime) :
  this (ws_on name l r) = this r.
Proof. unfold ws_on. now destruct (current_socket r). Qed.

Lemma sockets_ws_on (name : string) (l : Listener) (r : Runtime) :
  sockets (ws_on name l r) = sockets r.
Proof. unfold ws_on. now destruct (current_socket r). Qed.

Lemma lookup_snoc {A : Type} (l : list A) (x : A) : (l ++ [x])%list !! length l = Some x.
Proof. rewrite lookup_app_r by lia. now rewrite Nat.sub_diag. Qed.

(** [connect] always constructs a socket: it is the next one in the
    store, connecting, with nothing written, opened on [connect_url], and
    [this.ws] points to it.  The three flags are set whatever they were. *)
Lemma connect_socket (now : Z) (events : list string) (r : Runtime) :
  exists s,
    current_socket (connect createSignature now events r) = Some s /\
    ws (this (connect createSignature now events r)) = Some (length (sockets r)) /\
    url s = connect_url createSignature now (this r) /\
    readyState s = CONNECTING /\
    outbox s = [] /\
    length (sockets (connect createSignature now events r)) = S (length (sockets r)).
Proof.
  unfold connect, new_WebSocket.
  cbn [assign this set_ws set_wsEvents set_wsReconnect set_initialConnection
       wsEventListeners set_sockets set_tables sockets tables].
  destruct (wsEventListeners (this r)) as [t|].
  - unfold ws_set__events, current_socket.
    cbn [assign this set_ws ws set_sockets set_tables sockets mbind option_bind].
    rewrite list_lookup_alter_eq, lookup_snoc, length_alter, length_app. cbn [fmap option_fmap option_map].
    eexists. split; [reflexivity |]. simpl. repeat split. lia.
  - rewrite !current_socket_ws_on, !this_ws_on, !sockets_ws_on.
    unfold current_socket.
    cbn [assign this set_ws ws set_sockets set_tables sockets mbind option_bind].
    rewrite lookup_snoc, length_app.
    eexists. split; [reflexivity |]. simpl. repeat split. lia.
Qed.


End ConnectProperties.


(** ** The bare key and its symbols never meet *)

Lemma conflict_free_subset (l l' : list string) :
  (forall e, In e l' -> In e l) -> conflict_free l -> conflict_free l'.
Proof. intros Hsub H T e HT HinT Hin. apply (H T e); auto. Qed.

Lemma filterable_bare_not_scoped (T : string) :
  filterable T -> truthy (event_symbol T) = false.
Proof. intros HT. now destruct (bare_key T (filterable_no_colon T HT)) as [_ ->]. Qed.

Lemma filterable_topic_of_itself (T : string) : filterable T -> event_topic T = Some T.
Proof. intros HT. now destruct (bare_key T (filterable_no_colon T HT)). Qed.

(** The callback of [subscribe] keeps the set conflict free, in a replay
    or outside one. *)
Lemma subscribe_event_conflict_free (e : string) (r : Runtime) :
  conflict_free (DesiredSet r) -> conflict_free (DesiredSet (subscribe_event e r)).
Proof.
  unfold DesiredSet. intros Hcf. unfold subscribe_event.
  destruct (negb (includes (wsEvents (this r)) e) || initialConnection (this r)); [| exact Hcf].
  destruct (is_public_topic (event_topic e)) eqn:Hpub.
  - destruct (truthy (event_symbol e)) eqn:Hsym.
    + destruct (includes (wsEvents (this r)) (interpolate (event_topic e))) eqn:Hbare;
        cbn [negb]; [exact Hcf |].
      rewrite this_ws_send.
      destruct (initialConnection (this r)); cbn [negb]; [now rewrite this_ws_send |].
      cbn [assign this set_wsEvents wsEvents]. rewrite ?this_ws_send.
      apply includes_false in Hbare.
      intros T x HT HinT Hinx Hsc. apply union_In in HinT, Hinx. simpl in HinT, Hinx.
      destruct HinT as [HinT | [<- | []]].
      * destruct Hinx as [Hinx | [<- | []]]; [now apply (Hcf T x) |].
        destruct Hsc as [Ht _]. rewrite Ht in Hbare. now apply Hbare.
      * rewrite filterable_bare_not_scoped in Hsym by assumption. discriminate.
    + rewrite this_ws_send.
      destruct (initialConnection (this r)); cbn [negb]; [now rewrite this_ws_send |].
      cbn [assign this set_wsEvents wsEvents]. rewrite ?this_ws_send.
      intros T x HT HinT Hinx Hsc. apply union_In in HinT, Hinx. simpl in HinT, Hinx.
      destruct Hinx as [Hinx | [<- | []]].
      2:{ destruct Hsc as [_ Hs]. congruence. }
      apply filter_In in Hinx. destruct Hinx as [Hinx Hno]. apply negb_true_iff in Hno.
      destruct HinT as [HinT | [<- | []]].
      * apply filter_In in HinT. now apply (Hcf T x).
      * rewrite (filterable_topic_of_itself e HT) in Hno. cbn [interpolate] in Hno.
        rewrite symbol_scoped_includes in Hno by assumption. discriminate.
  - destruct (is_private_topic_subscribe (event_topic e)); [| exact Hcf].
    rewrite this_ws_send.
    destruct (initialConnection (this r)); cbn [negb]; [now rewrite this_ws_send |].
    cbn [assign this set_wsEvents wsEvents]. rewrite ?this_ws_send.
    intros T x HT HinT Hinx Hsc. apply union_In in HinT, Hinx. simpl in HinT, Hinx.
    destruct HinT as [HinT | [<- | []]].
    + destruct Hinx as [Hinx | [<- | []]]; [now apply (Hcf T x) |].
      destruct Hsc as [Ht _]. rewrite Ht, (filterable_public T HT) in Hpub. discriminate.
    + rewrite (filterable_topic_of_itself e HT), (filterable_public e HT) in Hpub. discriminate.
Qed.

Lemma unsubscribe_event_subset (e : string) (r : Runtime) :
  forall x, In x (DesiredSet (unsubscribe_event e r)) -> In x (DesiredSet r).
Proof.
  unfold DesiredSet, unsubscribe_event. intros x.
  destruct (includes (wsEvents (this r)) e); [| auto].
  destruct (is_public_topic (event_topic e)).
  - cbn [assign this set_wsEvents wsEvents]. rewrite filter_In.
    destruct (truthy (event_symbol e)); rewrite this_ws_send; tauto.
  - destruct (is_private_topic_unsubscribe (event_topic e)); [| auto].
    cbn [assign this set_wsEvents wsEvents]. rewrite filter_In, this_ws_send. tauto.
Qed.

Lemma each_preserves {S : Type} (P : S -> Prop) (f : string -> S -> S) (l : list string) :
  (forall x s, P s -> P (f x s)) -> forall s, P s -> P (each l f s).
Proof.
  intros Hf. unfold each. induction l as [|x l IH]; intros s Hs; cbn [foldl]; auto.
Qed.

Lemma subscribe_conflict_free (events : list string) (r : Runtime) :
  conflict_free (DesiredSet r) -> conflict_free (DesiredSet (snd (subscribe events r))).
Proof.
  intros H. unfold subscribe. destruct (wsConnected r); [| exact H]. cbn [snd].
  apply (each_preserves (fun s => conflict_free (DesiredSet s))); [| exact H].
  intros x s. apply subscribe_event_conflict_free.
Qed.

Lemma unsubscribe_conflict_free (events : list string) (r : Runtime) :
  conflict_free (DesiredSet r) -> conflict_free (DesiredSet (snd (unsubscribe events r))).
Proof.
  intros H. unfold unsubscribe. destruct (wsConnected r); [| exact H]. cbn [snd].
  apply (each_preserves (fun s => conflict_free (DesiredSet s))); [| exact H].
  intros x s Hs. eapply conflict_free_subset; [apply unsubscribe_event_subset | exact Hs].
Qed.

Lemma this_ws_close (r : Runtime) : this (ws_close r) = this r.
Proof. unfold ws_close. now destruct (ws (this r)). Qed.

Lemma DesiredSet_reconnect_or_drop (s : WebSocket) (r : Runtime) :
  DesiredSet (reconnect_or_drop s r) = DesiredSet r.
Proof. unfold reconnect_or_drop. now destruct (wsReconnect (this r)). Qed.

Lemma DesiredSet_on_error (r : Runtime) : DesiredSet (snd (on_error r)) = DesiredSet r.
Proof.
  unfold on_error. destruct (current_socket r) as [s|]; [| reflexivity].
  destruct (readyState s); cbn [snd]; try apply DesiredSet_reconnect_or_drop; try reflexivity.
  unfold DesiredSet. now rewrite this_ws_close.
Qed.

Lemma DesiredSet_on_close (r : Runtime) : DesiredSet (snd (on_close r)) = DesiredSet r.
Proof.
  unfold on_close. destruct (wsReconnect (this r)) eqn:E; [| reflexivity].
  destruct (current_socket r) as [s|]; [| reflexivity].
  cbn [snd]. apply DesiredSet_reconnect_or_drop.
Qed.

Lemma on_open_conflict_free (r : Runtime) :
  conflict_free (DesiredSet r) -> conflict_free (DesiredSet (snd (on_open r))).
Proof.
  intros H. unfold on_open.
  assert (conflict_free
            (DesiredSet (snd (if (0 <? length (wsEvents (this r)))%nat
                              then subscribe (wsEvents (this r)) r else (Normal, r))))) as H1.
  { destruct (0 <? length (wsEvents (this r)))%nat; [now apply subscribe_conflict_free | exact H]. }
  destruct (if (0 <? length (wsEvents (this r)))%nat
            then subscribe (wsEvents (this r)) r else (Normal, r)) as [c r1].
  cbn [snd] in H1. destruct c; [| exact H1].
  cbn [assign this set_initialConnection ws]. now destruct (ws (this r1)).
Qed.

Lemma call_listeners_conflict_free (name : string) (ls : list Listener) (r : Runtime) :
  conflict_free (DesiredSet r) -> conflict_free (DesiredSet (snd (call_listeners name ls r))).
Proof.
  revert r. induction ls as [|l ls IH]; intros r H; cbn [call_listeners]; [exact H |].
  assert (conflict_free (DesiredSet (snd (call_listener name l r)))) as H1.
  { destruct l; cbn [call_listener]; try exact H.
    - now rewrite DesiredSet_on_error.
    - now rewrite DesiredSet_on_error.
    - now rewrite DesiredSet_on_close.
    - now apply on_open_conflict_free. }
  destruct (call_listener name l r) as [[|e] r1]; cbn [snd] in *; [now apply IH | exact H1].
Qed.

Section Invariant.

Variable createSignature : string -> string -> string -> Z -> string.

(** [connect] makes its argument the DesiredSet, as it is. *)
Lemma DesiredSet_connect (now : Z) (events : list string) (r : Runtime) :
  DesiredSet (connect createSignature now events r) = events.
Proof.
  unfold DesiredSet, connect.
  destruct (wsEventListeners _).
  - unfold ws_set__events. now destruct (ws _).
  - now rewrite !this_ws_on.
Qed.

Lemma exec_conflict_free (st : Step) (r : Runtime) :
  match st with CallConnect _ events => conflict_free events | _ => True end ->
  conflict_free (DesiredSet r) ->
  conflict_free (DesiredSet (snd (exec createSignature st r))).
Proof.
  intros Hst H. destruct st; cbn [exec].
  - cbn [snd]. now rewrite DesiredSet_connect.
  - unfold disconnect. destruct (wsConnected r); [| exact H].
    cbn [snd]. unfold DesiredSet. now rewrite this_ws_close.
  - now apply subscribe_conflict_free.
  - now apply unsubscribe_conflict_free.
  - unfold caller_on. destruct (ws (this r)); [| exact H].
    cbn [snd]. unfold DesiredSet. now rewrite this_ws_on.
  - destruct (readyState <$> sockets r !! i) as [[]|]; try exact H.
    now apply call_listeners_conflict_free.
  - destruct (readyState <$> sockets r !! i) as [[]|]; try exact H;
      now apply call_listeners_conflict_free.
  - destruct (readyState <$> sockets r !! i) as [[]|]; exact H.
  - now apply call_listeners_conflict_free.
  - destruct (timers r); [exact H |]. cbn [snd]. now rewrite DesiredSet_connect.
Qed.

(** C5, as amended.  From a fresh instance, after any run of calls of
    [connect], [disconnect], [subscribe], [unsubscribe], registrations of
    listeners, socket events and reconnect timers in which every list
    handed to [connect] is conflict free, DesiredSet holds no bare
    filterable topic together with a symbol-scoped key of that topic. *)
Theorem C5_desired_set_conflict_free (opts : Options) (steps : list Step) :
  connects_conflict_free steps ->
  conflict_free (DesiredSet (run createSignature steps (boot opts))).
Proof.
  intros Hsteps.
  assert (conflict_free (DesiredSet (boot opts))) as H0 by (intros T e _ []).
  revert H0. generalize (boot opts). unfold run.
  induction Hsteps as [|st steps Hst _ IH]; intros r Hr; cbn [foldl]; [exact Hr |].
  apply IH. now apply exec_conflict_free.
Qed.

End Invariant.

Lemma C5_desired_set_conflict_free_witness :
  conflict_free
    (DesiredSet
       (run example_signature
            [CallConnect 1700000000 ["orderbook:xht-usdt"]; SocketOpens 0;
             CallSubscribe ["orderbook"; "trade:xht-usdt"]]
            (boot no_options))).
Proof.
  apply (C5_desired_set_conflict_free example_signature no_options).
  repeat constructor.
  intros T e HT [<- | []] [<- | []] Hsc. now apply (symbol_scoped_not_bare _ _ Hsc).
Defined.

(** C5 as stated fails after [connect] with a list that holds a bare
    filterable topic and one of its symbols: both are in DesiredSet. *)
Lemma C5_connect_keeps_conflicting_list :
  ~ conflict_free
      (DesiredSet
         (run example_signature
              [CallConnect 1700000000 ["orderbook"; "orderbook:xht-usdt"]; SocketOpens 0]
              (boot no_options))).
Proof.
  intros H. apply (H "orderbook" "orderbook:xht-usdt").
  - left; reflexivity.
  - vm_compute. left; reflexivity.
  - vm_compute. right; left; reflexivity.
  - split; vm_compute; reflexivity.
Qed.

(** ** Listeners across reconnects *)

Ltac fields :=
  cbn [this sockets tables timers heartbeats deliveries assign set_sockets set_tables
       set_timers set_heartbeats set_deliveries set_ws set_wsEvents set_wsReconnect
       set_wsEventListeners set_initialConnection ws wsEvents wsReconnect wsEventListeners
       initialConnection wsReconnectInterval readyState _events outbox url
       set_readyState set__events set_outbox fst snd] in *.

(** Listeners of the caller only record the delivery. *)
Lemma call_listeners_callers (name : string) (ids : list nat) (r : Runtime) :
  call_listeners name (map CallerListener ids) r
  = (Normal, set_deliveries (deliveries r ++ map (fun id => (id, name)) ids)%list r).
Proof.
  revert r. induction ids as [|id ids IH]; intros r; cbn [map call_listeners call_listener].
  - rewrite app_nil_r. now destruct r.
  - rewrite IH. fields. now rewrite <- app_assoc.
Qed.

Lemma listeners_eq (i : nat) (name : string) (r : Runtime) (s : WebSocket) (tbl : EventTable)
    (ls : list Listener) :
  sockets r !! i = Some s -> tables r !! _events s = Some tbl -> tbl !! name = Some ls ->
  listeners i name r = ls.
Proof. intros Hs Ht Hl. unfold listeners. rewrite Hs. cbn. rewrite Ht. cbn. now rewrite Hl. Qed.

Lemma skeleton_ws_send (m : string) (r : Runtime) : skeleton (ws_send m r) = skeleton r.
Proof.
  unfold ws_send. destruct (ws (this r)) as [i|]; [| reflexivity].
  unfold skeleton. fields. f_equal. f_equal.
  apply list_eq. intros j. rewrite !list_lookup_fmap.
  destruct (decide (i = j)) as [<- | Hne].
  - rewrite list_lookup_alter_eq. now destruct (sockets r !! i).
  - now rewrite list_lookup_alter_ne.
Qed.

Lemma skeleton_subscribe_event (e : string) (r : Runtime) :
  skeleton (subscribe_event e r) = skeleton r.
Proof.
  unfold subscribe_event.
  repeat match goal with
         | |- context [if ?b then _ else _] => destruct b
         end;
    try reflexivity; try apply skeleton_ws_send;
    unfold skeleton; fields; apply skeleton_ws_send.
Qed.

Lemma skeleton_on_open (r r' : Runtime) :
  wsConnected r = true -> on_open r = (Normal, r') -> skeleton r' = skeleton r.
Proof.
  intros Hc. unfold on_open, subscribe. rewrite Hc.
  assert (skeleton (each (wsEvents (this r)) subscribe_event r) = skeleton r) as Hsk.
  { apply (each_preserves (fun s => skeleton s = skeleton r)); [| reflexivity].
    intros x s Hs. now rewrite skeleton_subscribe_event. }
  destruct (0 <? length (wsEvents (this r)))%nat.
  - destruct (ws _); intros [= <-]. exact Hsk.
  - destruct (ws _); intros [= <-]. reflexivity.
Qed.

Lemma skeleton_socket (r r' : Runtime) (i : nat) (s : WebSocket) :
  skeleton r' = skeleton r -> sockets r !! i = Some s ->
  exists s', sockets r' !! i = Some s' /\ readyState s' = readyState s /\ _events s' = _events s.
Proof.
  unfold skeleton. intros [= Hm _ _] Hs.
  assert ((map (fun s => (url s, readyState s, _events s)) (sockets r')) !! i
          = Some (url s, readyState s, _events s)) as H.
  { rewrite Hm. change (map ?f ?l) with (f <$> l). now rewrite list_lookup_fmap, Hs. }
  change (map ?f ?l) with (f <$> l) in H. rewrite list_lookup_fmap in H.
  destruct (sockets r' !! i) as [s'|]; [| discriminate].
  injection H as _ H1 H2. now exists s'.
Qed.

Lemma skeleton_length (r r' : Runtime) :
  skeleton r' = skeleton r -> length (sockets r') = length (sockets r).
Proof.
  unfold skeleton. intros [= Hm _ _].
  apply (f_equal (@length _)) in Hm. now rewrite !length_map in Hm.
Qed.

Section Reconnect.

Variable createSignature : string -> string -> string -> Z -> string.

(** The socket closes: the ['close'] listener keeps the table and arms
    the timer. *)
Lemma socket_closes (rs : ReadyState) (t i : nat) (tbl : EventTable) (r : Runtime) :
  rs <> CLOSED -> kit_table tbl -> session rs t i tbl r ->
  waiting t i tbl (snd (exec createSignature (SocketCloses i) r)) /\
  DesiredSet (snd (exec createSignature (SocketCloses i) r)) = DesiredSet r.
Proof.
  intros Hrs (_ & (ids & Hclose) & _) (Hws & (s & Hs & Hr & He) & Hlen & Hrec & Htim & Htbl).
  pose (r1 := set_sockets (alter (set_readyState CLOSED) i (sockets r)) r).
  assert (sockets r1 !! i = Some (set_readyState CLOSED s)) as Hs1.
  { unfold r1. fields. now rewrite list_lookup_alter_eq, Hs. }
  assert (current_socket r1 = Some (set_readyState CLOSED s)) as Hcur.
  { unfold current_socket. change (this r1) with (this r). rewrite Hws.
    cbn [mbind option_bind]. exact Hs1. }
  assert (snd (exec createSignature (SocketCloses i) r) = snd (emit i "close" r1)) as ->.
  { cbn [exec]. rewrite Hs. cbn [fmap option_fmap option_map]. rewrite Hr.
    destruct rs; try reflexivity. now destruct Hrs. }
  unfold emit. rewrite (listeners_eq i "close" r1 _ tbl _ Hs1 ltac:(fields; now rewrite He) Hclose).
  cbn [call_listeners call_listener].
  unfold on_close. change (this r1) with (this r). rewrite Hrec, Hcur, call_listeners_callers.
  unfold reconnect_or_drop. change (this r1) with (this r). rewrite Hrec.
  unfold waiting, DesiredSet, setTimeout_reconnect, r1. fields.
  rewrite Htim, He, length_alter. auto 10.
Qed.

(** The timer fires: [connect] constructs the next socket and hands it
    the table that was kept; a replay is pending. *)
Lemma timer_fires (now : Z) (t i : nat) (tbl : EventTable) (r : Runtime) :
  waiting t i tbl r ->
  session CONNECTING t (S i) tbl (snd (exec createSignature (TimerFires now) r)) /\
  replaying (snd (exec createSignature (TimerFires now) r)) = true /\
  sent (snd (exec createSignature (TimerFires now) r)) = [] /\
  DesiredSet (snd (exec createSignature (TimerFires now) r)) = DesiredSet r.
Proof.
  intros (Hws & Hlis & Hrec & Htim & Hlen & Htbl). rewrite <- Hlen.
  cbn [exec]. rewrite Htim. cbn [snd].
  unfold connect, new_WebSocket. fields. rewrite Hlis.
  unfold ws_set__events, session, replaying, sent, current_socket, DesiredSet. fields.
  cbn [mbind option_bind]. rewrite length_alter, length_app.
  rewrite list_lookup_alter_eq, lookup_snoc. cbn [fmap option_fmap option_map]. fields.
  split; [| auto].
  split; [reflexivity |]. split; [eexists; split; [reflexivity | now fields] |].
  split; [simpl; lia |]. split; [reflexivity |]. split; [reflexivity |].
  apply lookup_app_l_Some. exact Htbl.
Qed.

(** The new socket opens: the ['open'] listener of the kept table replays
    the DesiredSet. *)
Lemma socket_opens (t i : nat) (tbl : EventTable) (r : Runtime) :
  kit_table tbl -> session CONNECTING t i tbl r -> replaying r = true ->
  session OPEN t i tbl (snd (exec createSignature (SocketOpens i) r)) /\
  replaying (snd (exec createSignature (SocketOpens i) r)) = false /\
  sent (snd (exec createSignature (SocketOpens i) r)) = (sent r ++ replay_plan (DesiredSet r))%list /\
  DesiredSet (snd (exec createSignature (SocketOpens i) r)) = DesiredSet r.
Proof.
  intros (_ & _ & (ids & Hopen)) (Hws & (s & Hs & Hr & He) & Hlen & Hrec & Htim & Htbl) Hrep.
  pose (r1 := set_sockets (alter (set_readyState OPEN) i (sockets r)) r).
  assert (sockets r1 !! i = Some (set_readyState OPEN s)) as Hs1.
  { unfold r1. fields. now rewrite list_lookup_alter_eq, Hs. }
  assert (current_socket r1 = Some (set_readyState OPEN s)) as Hcur.
  { unfold current_socket. change (this r1) with (this r). rewrite Hws.
    cbn [mbind option_bind]. exact Hs1. }
  assert (wsConnected r1 = true) as Hc1 by (unfold wsConnected; now rewrite Hcur).
  assert (sent r1 = sent r) as Hsent1.
  { unfold sent. rewrite Hcur. unfold current_socket. rewrite Hws.
    cbn [mbind option_bind]. now rewrite Hs. }
  assert (snd (exec createSignature (SocketOpens i) r) = snd (emit i "open" r1)) as ->.
  { cbn [exec]. rewrite Hs. cbn [fmap option_fmap option_map]. now rewrite Hr. }
  destruct (on_open_replay r1 Hc1 Hrep) as (r2 & Hoo & Ht2 & Hsent2 & Hc2).
  pose proof (skeleton_on_open r1 r2 Hc1 Hoo) as Hsk.
  unfold emit. rewrite (listeners_eq i "open" r1 _ tbl _ Hs1 ltac:(fields; now rewrite He) Hopen).
  cbn [call_listeners call_listener].
  rewrite Hoo, call_listeners_callers. cbn [snd].
  destruct (skeleton_socket r1 r2 i _ Hsk Hs1) as (s2 & Hs2 & Hr2 & He2).
  pose proof (skeleton_length r1 r2 Hsk) as Hl2.
  unfold skeleton in Hsk. injection Hsk as _ Htb2 Htm2.
  assert (this r2 = set_initialConnection false (this r)) as Ht2' by exact Ht2.
  split; [| split; [| split]].
  - unfold session. fields. rewrite Ht2', Htb2, Htm2, Hl2. fields.
    split; [exact Hws |]. split.
    { exists s2. split; [exact Hs2 |]. split; [exact Hr2 |]. now rewrite He2. }
    split; [unfold r1; fields; now rewrite length_alter |]. auto.
  - unfold replaying. fields. now rewrite Ht2'.
  - change (sent (set_deliveries ?d r2)) with (sent r2). now rewrite Hsent2, Hsent1.
  - unfold DesiredSet. fields. now rewrite Ht2'.
Qed.

End Reconnect.

Lemma timers_ws_on (name : string) (l : Listener) (r : Runtime) :
  timers (ws_on name l r) = timers r.
Proof. unfold ws_on. now destruct (current_socket r). Qed.

(** [on] appends to the list of its event in the table of the socket and
    touches no other table. *)
Lemma tables_ws_on (name : string) (l : Listener) (r : Runtime) (s : WebSocket) (tbl : EventTable) :
  current_socket r = Some s -> tables r !! _events s = Some tbl ->
  tables (ws_on name l r) !! _events s
  = Some (<[name := (default [] (tbl !! name) ++ [l])%list]> tbl) /\
  length (tables (ws_on name l r)) = length (tables r) /\
  (forall t, t <> _events s -> tables (ws_on name l r) !! t = tables r !! t).
Proof.
  intros Hs Ht. unfold ws_on. rewrite Hs. fields.
  rewrite list_lookup_alter_eq, Ht, length_alter. split; [reflexivity |].
  split; [reflexivity |]. intros t Hne. now rewrite list_lookup_alter_ne.
Qed.

Lemma kit_table_fresh : kit_table fresh_table.
Proof.
  split; [| split]; exists []; vm_compute; reflexivity.
Qed.



Section Sessions.

Variable createSignature : string -> string -> string -> Z -> string.

(** [connect] on an instance that keeps no listeners: the new socket gets
    a table of its own with the four listeners of the kit. *)
Lemma connect_fresh (now : Z) (events : list string) (r : Runtime) :
  wsEventListeners (this r) = None -> timers r = [] ->
  session CONNECTING (length (tables r)) (length (sockets r)) fresh_table
          (connect createSignature now events r) /\
  replaying (connect createSignature now events r) = true /\
  sent (connect createSignature now events r) = [].
Proof.
  intros Hlis Htim.
  pose (r4 := new_WebSocket (connect_url createSignature now (this r))
                (assign (set_initialConnection true)
                   (assign (set_wsEvents events) (assign (set_wsReconnect true) r)))).
  assert (connect createSignature now events r
          = ws_on "open" OnOpen
              (ws_on "close" OnClose
                 (ws_on "error" OnError
                    (ws_on "unexpected-response" OnUnexpectedResponse r4)))) as ->.
  { unfold connect. replace (wsEventListeners _) with (@None nat) by (symmetry; exact Hlis).
    reflexivity. }
  assert (current_socket r4
          = Some (mkWebSocket (connect_url createSignature now (this r)) CONNECTING
                              (length (tables r)) [])) as Hcur.
  { unfold r4, new_WebSocket, current_socket. fields. cbn [mbind option_bind].
    now rewrite lookup_snoc. }
  assert (tables r4 !! length (tables r) = Some ∅) as Htb.
  { unfold r4, new_WebSocket. fields. now rewrite lookup_snoc. }
  set (s0 := mkWebSocket _ _ _ _) in Hcur.
  change (length (tables r)) with (_events s0) in Htb |- *.
  destruct (tables_ws_on "unexpected-response" OnUnexpectedResponse r4 s0 ∅ Hcur Htb) as (H1 & _ & _).
  rewrite <- (current_socket_ws_on "unexpected-response" OnUnexpectedResponse) in Hcur.
  destruct (tables_ws_on "error" OnError _ s0 _ Hcur H1) as (H2 & _ & _).
  rewrite <- (current_socket_ws_on "error" OnError) in Hcur.
  destruct (tables_ws_on "close" OnClose _ s0 _ Hcur H2) as (H3 & _ & _).
  rewrite <- (current_socket_ws_on "close" OnClose) in Hcur.
  destruct (tables_ws_on "open" OnOpen _ s0 _ Hcur H3) as (H4 & _ & _).
  rewrite <- (current_socket_ws_on "open" OnOpen) in Hcur.
  unfold session, replaying, sent. rewrite Hcur, !this_ws_on, !sockets_ws_on, !timers_ws_on.
  unfold current_socket in Hcur. rewrite !this_ws_on, !sockets_ws_on in Hcur.
  assert (ws (this r4) = Some (length (sockets r))) as Hws by reflexivity.
  rewrite Hws in Hcur |- *. cbn [mbind option_bind] in Hcur.
  split; [| split; reflexivity].
  split; [reflexivity |]. split; [exists s0; now split |].
  split; [unfold r4, new_WebSocket; fields; rewrite length_app; simpl; lia |].
  split; [reflexivity |]. split; [exact Htim |].
  rewrite H4. f_equal.
Qed.


(** The socket reports an error while open: the listener starts closing
    it. *)
Lemma socket_error_open (t i : nat) (tbl : EventTable) (r : Runtime) :
  kit_table tbl -> session OPEN t i tbl r ->
  session CLOSING t i tbl (snd (exec createSignature (SocketEmits i "error") r)) /\
  DesiredSet (snd (exec createSignature (SocketEmits i "error") r)) = DesiredSet r.
Proof.
  intros ((ids & Herr) & _ & _) (Hws & (s & Hs & Hr & He) & Hlen & Hrec & Htim & Htbl).
  assert (current_socket r = Some s) as Hcur.
  { unfold current_socket. rewrite Hws. exact Hs. }
  cbn [exec]. unfold emit.
  rewrite (listeners_eq i "error" r s tbl _ Hs ltac:(now rewrite He) Herr).
  cbn [call_listeners call_listener]. unfold on_error. rewrite Hcur, Hr.
  rewrite call_listeners_callers. cbn [snd].
  unfold session, DesiredSet, ws_close. fields. rewrite Hws. fields.
  rewrite list_lookup_alter_eq, Hs, length_alter. cbn [fmap option_fmap option_map].
  rewrite Hr. split; [| reflexivity].
  split; [first [reflexivity | exact Hws] |].
  split; [eexists; split; [reflexivity | now fields] |]. auto.
Qed.

Lemma run_app (a b : list Step) (r : Runtime) :
  run createSignature (a ++ b) r = run createSignature b (run createSignature a r).
Proof. unfold run. apply foldl_app. Qed.

(** One failure and its reconnect: the next socket is open on the same
    table, the DesiredSet is the same and has been replayed to it. *)
Lemma one_cycle (f : Failure) (now : Z) (t i : nat) (tbl : EventTable) (r : Runtime) :
  kit_table tbl -> session OPEN t i tbl r ->
  session OPEN t (S i) tbl (run createSignature (cycle_steps f now i (S i)) r) /\
  replaying (run createSignature (cycle_steps f now i (S i)) r) = false /\
  sent (run createSignature (cycle_steps f now i (S i)) r) = replay_plan (DesiredSet r) /\
  DesiredSet (run createSignature (cycle_steps f now i (S i)) r) = DesiredSet r.
Proof.
  intros Hk Hses.
  assert (forall rs r0, rs <> CLOSED -> session rs t i tbl r0 ->
            let r' := run createSignature [SocketCloses i; TimerFires now; SocketOpens (S i)] r0 in
            session OPEN t (S i) tbl r' /\ replaying r' = false /\
            sent r' = replay_plan (DesiredSet r0) /\ DesiredSet r' = DesiredSet r0) as Hrest.
  { intros rs r0 Hrs H0. unfold run. cbn [foldl].
    destruct (socket_closes createSignature rs t i tbl r0 Hrs Hk H0) as (Hw & Hd1).
    destruct (timer_fires createSignature now t i tbl _ Hw) as (Hc & Hrep & Hsent & Hd2).
    destruct (socket_opens createSignature t (S i) tbl _ Hk Hc Hrep) as (Ho & Hrep' & Hsent' & Hd3).
    split; [exact Ho |]. split; [exact Hrep' |].
    split; [rewrite Hsent', Hsent, Hd2, Hd1; reflexivity |]. now rewrite Hd3, Hd2, Hd1. }
  destruct f; cbn [cycle_steps].
  - exact (Hrest OPEN r ltac:(discriminate) Hses).
  - destruct (socket_error_open t i tbl r Hk Hses) as (Hcl & Hd).
    change (SocketEmits i "error" :: ?l) with ([SocketEmits i "error"] ++ l)%list.
    rewrite run_app. unfold run at 2 4 6 8. cbn [foldl].
    destruct (Hrest CLOSING _ ltac:(discriminate) Hcl) as (H1 & H2 & H3 & H4).
    rewrite Hd in H3, H4. auto.
Qed.

(** Any number of failures, each followed by its reconnect. *)
Lemma many_cycles (fs : list (Failure * Z)) (t i : nat) (tbl : EventTable) (r : Runtime) :
  kit_table tbl -> session OPEN t i tbl r ->
  session OPEN t (i + length fs) tbl (run createSignature (cycles_from i fs) r) /\
  DesiredSet (run createSignature (cycles_from i fs) r) = DesiredSet r /\
  (replaying r = false -> replaying (run createSignature (cycles_from i fs) r) = false) /\
  (fs <> [] -> sent (run createSignature (cycles_from i fs) r) = replay_plan (DesiredSet r)).
Proof.
  intros Hk. revert i r. induction fs as [|[f now] fs IH]; intros i r Hses; cbn [cycles_from length].
  - rewrite Nat.add_0_r. unfold run. cbn [foldl].
    repeat split; auto. all: try apply Hses. intros H. now destruct H.
  - rewrite run_app.
    destruct (one_cycle f now t i tbl r Hk Hses) as (H1 & H2 & H3 & H4).
    destruct (IH (S i) _ H1) as (G1 & G2 & G3 & G4).
    replace (i + S (length fs)) with (S i + length fs) by lia.
    split; [exact G1 |]. split; [now rewrite G2 |]. split; [auto |].
    intros _. destruct fs as [|p fs'].
    + cbn [cycles_from]. unfold run at 1. cbn [foldl]. exact H3.
    + rewrite G4 by discriminate. now rewrite H4.
Qed.

End Sessions.

Section Survival.

Variable createSignature : string -> string -> string -> Z -> string.



End Survival.



(** ** [disconnect] and the reconnect timer *)

(** C4 at the input where the code departs from it.  A reconnect timer is
    pending while the session is open (the first session was lost and the
    caller called [connect] again before the timer fired).  [disconnect]
    returns normally and, once the socket has closed, the instance is
    Stopped with two sockets constructed so far.  Then the timer fires:
    [connect] constructs a third socket, turns [wsReconnect] back on, and
    the instance is Connecting again; the socket opens and the DesiredSet
    is replayed to it. *)
Theorem C4_stale_timer_reconnects_after_disconnect :
  connection_state (run example_signature race_prefix (boot no_options)) = Open /\
  timers (run example_signature race_prefix (boot no_options)) = [5000%Z] /\
  fst (disconnect (run example_signature race_prefix (boot no_options))) = Normal /\
  connection_state
    (run example_signature (race_prefix ++ [CallDisconnect; SocketCloses 1]) (boot no_options))
  = Stopped /\
  length (sockets
    (run example_signature (race_prefix ++ [CallDisconnect; SocketCloses 1]) (boot no_options)))
  = 2%nat /\
  length (sockets
    (run example_signature
       (race_prefix ++ [CallDisconnect; SocketCloses 1; TimerFires 1700000005])
       (boot no_options)))
  = 3%nat /\
  connection_state
    (run example_signature
       (race_prefix ++ [CallDisconnect; SocketCloses 1; TimerFires 1700000005])
       (boot no_options))
  = Connecting /\
  wsReconnect (this
    (run example_signature
       (race_prefix ++ [CallDisconnect; SocketCloses 1; TimerFires 1700000005])
       (boot no_options)))
  = true /\
  connection_state
    (run example_signature
       (race_prefix ++ [CallDisconnect; SocketCloses 1; TimerFires 1700000005; SocketOpens 2])
       (boot no_options))
  = Open /\
  sent
    (run example_signature
       (race_prefix ++ [CallDisconnect; SocketCloses 1; TimerFires 1700000005; SocketOpens 2])
       (boot no_options))
  = [wire_text "subscribe" "orderbook"].
Proof. vm_compute. repeat split; reflexivity. Qed.

(** * Further properties of the websocket code *)

(** ** [subscribe] and [unsubscribe] beyond the claims *)

Lemma connection_view_ws_send (m : string) (r : Runtime) :
  connection_view (ws_send m r) = connection_view r.
Proof.
  unfold connection_view. rewrite skeleton_ws_send, this_ws_send.
  unfold ws_send. now destruct (ws (this r)).
Qed.

Lemma connection_view_set_wsEvents (l : list string) (r : Runtime) :
  connection_view (assign (set_wsEvents l) r) = connection_view r.
Proof. reflexivity. Qed.

Lemma connection_view_subscribe_event (e : string) (r : Runtime) :
  connection_view (subscribe_event e r) = connection_view r.
Proof.
  unfold subscribe_event.
  repeat match goal with
         | |- context [if ?b then _ else _] => destruct b
         end;
    rewrite ?connection_view_set_wsEvents, ?connection_view_ws_send; reflexivity.
Qed.

Lemma connection_view_unsubscribe_event (e : string) (r : Runtime) :
  connection_view (unsubscribe_event e r) = connection_view r.
Proof.
  unfold unsubscribe_event.
  repeat match goal with
         | |- context [if ?b then _ else _] => destruct b
         end;
    rewrite ?connection_view_set_wsEvents, ?connection_view_ws_send; reflexivity.
Qed.

Lemma connection_view_connected (r r' : Runtime) :
  connection_view r' = connection_view r -> wsConnected r' = wsConnected r.
Proof.
  unfold connection_view. intros H.
  assert (skeleton r' = skeleton r) as Hsk by congruence.
  assert (ws (this r') = ws (this r)) as Hws by congruence.
  unfold wsConnected, current_socket. rewrite Hws.
  destruct (ws (this r)) as [i|]; cbn [mbind option_bind]; [| reflexivity].
  destruct (sockets r !! i) as [s|] eqn:Hs.
  - destruct (skeleton_socket r r' i s Hsk Hs) as (s' & -> & -> & _). reflexivity.
  - destruct (sockets r' !! i) as [s'|] eqn:Hs'; [| reflexivity].
    destruct (skeleton_socket r' r i s' (eq_sym Hsk) Hs') as (s0 & Hs0 & _). congruence.
Qed.

Lemma connection_view_calls (events : list string) (r : Runtime) :
  connection_view (snd (subscribe events r)) = connection_view r /\
  connection_view (snd (unsubscribe events r)) = connection_view r.
Proof.
  unfold subscribe, unsubscribe. destruct (wsConnected r); cbn [snd]; [| now split].
  split.
  - apply (each_preserves (fun s => connection_view s = connection_view r)); [| reflexivity].
    intros x s Hs. now rewrite connection_view_subscribe_event.
  - apply (each_preserves (fun s => connection_view s = connection_view r)); [| reflexivity].
    intros x s Hs. now rewrite connection_view_unsubscribe_event.
Qed.


(** X2.  [unsubscribe] of keys that are not desired is a no-op: it returns
    normally, writes nothing and changes nothing. *)
Theorem unsubscribe_absent_is_noop (events : list string) (r : Runtime) :
  wsConnected r = true ->
  (forall e, In e events -> ~ In e (DesiredSet r)) ->
  unsubscribe events r = (Normal, r).
Proof.
  intros Hc Habs. unfold unsubscribe. rewrite Hc. f_equal.
  induction events as [|e events IH]; cbn [each foldl]; [reflexivity |].
  assert (unsubscribe_event e r = r) as ->.
  { unfold unsubscribe_event.
    assert (includes (wsEvents (this r)) e = false) as ->; [| reflexivity].
    apply includes_false. apply Habs. now left. }
  apply IH. intros x Hx. apply Habs. now right.
Qed.

Lemma unsubscribe_absent_is_noop_witness :
  unsubscribe ["trade"; "wallet"] (opened ["orderbook"]) = (Normal, opened ["orderbook"]).
Proof.
  apply unsubscribe_absent_is_noop.
  - vm_compute. reflexivity.
  - vm_compute. intros e [<- | [<- | []]] [H | []]; discriminate H.
Defined.

Lemma private_unsubscribable_cases (T : string) :
  private_unsubscribable T ->
  is_public_topic (Some T) = false /\ is_private_topic_unsubscribe (Some T) = true /\
  after_colon T = None /\ unsubscribe_message T = wire_text "unsubscribe" T.
Proof. intros [-> | [-> | [-> | [-> | ->]]]]; repeat split; reflexivity. Qed.

Lemma filter_neq_In (e x : string) (l : list string) :
  In x (List.filter (fun y => negb (y =? e)) l) <-> In x l /\ x <> e.
Proof.
  rewrite filter_In, negb_true_iff, String.eqb_neq. reflexivity.
Qed.

(** X3.  [unsubscribe] of a desired key of [order], [wallet], [deposit],
    [withdrawal] or [admin], with or without a suffix, or of a desired bare
    [orderbook] or [trade]: one unsubscribe message naming the topic
    alone, and exactly that key leaves the DesiredSet. *)
Theorem unsubscribe_present_topic (r : Runtime) (T e : string) :
  wsConnected r = true -> In e (DesiredSet r) ->
  (private_unsubscribable T /\ event_topic e = Some T) \/ (filterable T /\ e = T) ->
  exists r',
    unsubscribe [e] r = (Normal, r') /\
    sent r' = (sent r ++ [wire_text "unsubscribe" T])%list /\
    (forall x, In x (DesiredSet r') <-> In x (DesiredSet r) /\ x <> e).
Proof.
  intros Hc Hin Hcase. unfold unsubscribe. rewrite Hc. cbn [each foldl].
  apply includes_In in Hin. unfold DesiredSet in *.
  unfold unsubscribe_event. rewrite Hin.
  destruct Hcase as [[HT Ht] | [HT ->]].
  - destruct (private_unsubscribable_cases T HT) as (Hpub & Hpriv & _ & Hmsg).
    rewrite Ht, Hpub, Hpriv. cbn [interpolate]. eexists. split; [reflexivity |].
    rewrite sent_set_wsEvents, sent_ws_send, Hmsg by assumption. split; [reflexivity |].
    intros x. cbn [assign this set_wsEvents wsEvents]. rewrite this_ws_send.
    apply filter_neq_In.
  - destruct (bare_key T (filterable_no_colon T HT)) as [Ht Hs].
    rewrite Ht, Hs, (filterable_public T HT). cbn [truthy interpolate].
    eexists. split; [reflexivity |].
    rewrite sent_set_wsEvents, sent_ws_send by assumption.
    split.
    + f_equal. f_equal. destruct HT as [-> | ->]; reflexivity.
    + intros x. cbn [assign this set_wsEvents wsEvents]. rewrite this_ws_send.
      apply filter_neq_In.
Qed.

Lemma unsubscribe_present_topic_witness :
  exists r',
    unsubscribe ["orderbook"] (opened ["orderbook"; "wallet"]) = (Normal, r') /\
    sent r' = (sent (opened ["orderbook"; "wallet"]) ++ [wire_text "unsubscribe" "orderbook"])%list /\
    (forall x, In x (DesiredSet r') <->
               In x (DesiredSet (opened ["orderbook"; "wallet"])) /\ x <> "orderbook").
Proof.
  apply (unsubscribe_present_topic (opened ["orderbook"; "wallet"]) "orderbook" "orderbook").
  - vm_compute. reflexivity.
  - vm_compute. left. reflexivity.
  - right. split; [left |]; reflexivity.
Defined.

(** X4.  [unsubscribe] of a desired symbol-scoped key of [orderbook] or
    [trade]: one unsubscribe message for the topic and the symbol (what
    stands between the first and the second colon), and exactly that key
    leaves the DesiredSet. *)
Theorem unsubscribe_present_symbol (r : Runtime) (T : string) (c : ascii) (rest : string) :
  filterable T -> c <> ":"%char ->
  wsConnected r = true -> In (T ++ ":" ++ String c rest) (DesiredSet r) ->
  exists r',
    unsubscribe [T ++ ":" ++ String c rest] r = (Normal, r') /\
    sent r' = (sent r ++ [unsubscribe_message (T ++ ":" ++ before_colon (String c rest))])%list /\
    (forall x, In x (DesiredSet r') <-> In x (DesiredSet r) /\ x <> T ++ ":" ++ String c rest).
Proof.
  intros HT Hne Hc Hin. unfold unsubscribe. rewrite Hc. cbn [each foldl].
  apply includes_In in Hin. unfold DesiredSet in *.
  destruct (scoped_key T c rest (filterable_no_colon T HT) Hne) as (Ht & Hs & Htr).
  unfold unsubscribe_event. rewrite Hin, Ht, Htr, Hs, (filterable_public T HT).
  cbn [interpolate]. eexists. split; [reflexivity |].
  rewrite sent_set_wsEvents, sent_ws_send by assumption. split; [reflexivity |].
  intros x. cbn [assign this set_wsEvents wsEvents]. rewrite this_ws_send.
  apply filter_neq_In.
Qed.

Lemma unsubscribe_present_symbol_witness :
  exists r',
    unsubscribe ["trade" ++ ":" ++ String "x" "ht-usdt"] (opened ["trade:xht-usdt"]) = (Normal, r') /\
    sent r' = (sent (opened ["trade:xht-usdt"]) ++ [wire_text "unsubscribe" "trade:xht-usdt"])%list.
Proof.
  assert (filterable "trade") as HT by (right; reflexivity).
  assert ("x"%char <> ":"%char) as Hne by discriminate.
  assert (wsConnected (opened ["trade:xht-usdt"]) = true) as Hc by (vm_compute; reflexivity).
  assert (In ("trade" ++ ":" ++ String "x" "ht-usdt") (DesiredSet (opened ["trade:xht-usdt"]))) as Hin
    by (vm_compute; left; reflexivity).
  destruct (unsubscribe_present_symbol (opened ["trade:xht-usdt"]) "trade" "x" "ht-usdt" HT Hne Hc Hin)
    as (r' & H1 & H2 & _).
  exists r'. split; [exact H1 |]. rewrite H2. reflexivity.
Defined.

Lemma is_private_topic_subscribe_private (T : string) :
  is_private_topic_subscribe (Some T) = true -> private T.
Proof.
  unfold is_private_topic_subscribe, private. intros H.
  repeat (apply orb_prop in H; destruct H as [H | H]);
    apply bool_decide_eq_true in H; injection H as ->; tauto.
Qed.

(** X5.  A key whose topic is none of the eight is ignored by [subscribe] and
    by [unsubscribe], in a replay or outside one, desired or not: nothing
    is written and nothing changes. *)
Theorem unknown_topic_ignored (r : Runtime) (T e : string) :
  event_topic e = Some T -> ~ filterable T -> ~ private T ->
  wsConnected r = true ->
  subscribe [e] r = (Normal, r) /\ unsubscribe [e] r = (Normal, r).
Proof.
  intros Ht Hnf Hnp Hc.
  assert (is_public_topic (Some T) = false) as Hpub.
  { destruct (is_public_topic (Some T)) eqn:E; [| reflexivity].
    now apply is_public_topic_filterable in E. }
  assert (is_private_topic_subscribe (Some T) = false) as Hpriv.
  { destruct (is_private_topic_subscribe (Some T)) eqn:E; [| reflexivity].
    now apply is_private_topic_subscribe_private in E. }
  assert (is_private_topic_unsubscribe (Some T) = false) as Hpriv'.
  { destruct (is_private_topic_unsubscribe (Some T)) eqn:E; [| reflexivity].
    exfalso. apply Hnp. unfold is_private_topic_unsubscribe in E. unfold private.
    repeat (apply orb_prop in E; destruct E as [E | E]);
      apply bool_decide_eq_true in E; injection E as ->; tauto. }
  unfold subscribe, unsubscribe. rewrite Hc. cbn [each foldl].
  unfold subscribe_event, unsubscribe_event. rewrite Ht, Hpub, Hpriv, Hpriv'.
  split.
  - now destruct (negb _ || _).
  - now destruct (includes _ _).
Qed.

Lemma unknown_topic_ignored_witness :
  subscribe ["ticker:xht-usdt"] (opened ["orderbook"]) = (Normal, opened ["orderbook"]) /\
  unsubscribe ["ticker:xht-usdt"] (opened ["orderbook"]) = (Normal, opened ["orderbook"]).
Proof.
  apply (unknown_topic_ignored (opened ["orderbook"]) "ticker" "ticker:xht-usdt").
  - vm_compute. reflexivity.
  - intros [H | H]; discriminate H.
  - intros [H | [H | [H | [H | [H | H]]]]]; discriminate H.
  - vm_compute. reflexivity.
Defined.

(** X6.  A symbol-scoped key of [orderbook] or [trade] that is not desired,
    while the bare topic is not desired either: one subscribe message for
    the topic and the symbol (what stands between the first and the second
    colon), and the key joins the DesiredSet. *)
Theorem subscribe_fresh_symbol (r : Runtime) (T : string) (c : ascii) (rest : string) :
  filterable T -> c <> ":"%char ->
  wsConnected r = true -> replaying r = false ->
  ~ In T (DesiredSet r) -> ~ In (T ++ ":" ++ String c rest) (DesiredSet r) ->
  exists r',
    subscribe [T ++ ":" ++ String c rest] r = (Normal, r') /\
    sent r' = (sent r ++ [subscribe_message (T ++ ":" ++ before_colon (String c rest))])%list /\
    (forall x, In x (DesiredSet r') <-> In x (DesiredSet r) \/ x = T ++ ":" ++ String c rest).
Proof.
  intros HT Hne Hc Hrep HnT Hne'. unfold subscribe. rewrite Hc. cbn [each foldl].
  apply includes_false in HnT, Hne'. unfold DesiredSet, replaying in *.
  destruct (scoped_key T c rest (filterable_no_colon T HT) Hne) as (Ht & Hs & Htr).
  unfold subscribe_event. rewrite Hne', Hrep, Ht, Htr, Hs, (filterable_public T HT).
  cbn [negb orb interpolate]. rewrite HnT. cbn [negb]. rewrite this_ws_send, Hrep. cbn [negb].
  eexists. split; [reflexivity |].
  rewrite sent_set_wsEvents, sent_ws_send by assumption. split; [reflexivity |].
  intros x. cbn [assign this set_wsEvents wsEvents]. rewrite ?this_ws_send, union_In.
  simpl. intuition.
Qed.

Lemma subscribe_fresh_symbol_witness :
  exists r',
    subscribe ["orderbook" ++ ":" ++ String "x" "ht-usdt"] (opened ["trade"]) = (Normal, r') /\
    sent r' = (sent (opened ["trade"]) ++ [wire_text "subscribe" "orderbook:xht-usdt"])%list.
Proof.
  assert (filterable "orderbook") as HT by (left; reflexivity).
  assert ("x"%char <> ":"%char) as Hne by discriminate.
  assert (wsConnected (opened ["trade"]) = true) as Hc by (vm_compute; reflexivity).
  assert (replaying (opened ["trade"]) = false) as Hr by (vm_compute; reflexivity).
  assert (~ In "orderbook" (DesiredSet (opened ["trade"]))) as H1
    by (vm_compute; intros [H | []]; discriminate H).
  assert (~ In ("orderbook" ++ ":" ++ String "x" "ht-usdt") (DesiredSet (opened ["trade"]))) as H2
    by (vm_compute; intros [H | []]; discriminate H).
  destruct (subscribe_fresh_symbol (opened ["trade"]) "orderbook" "x" "ht-usdt" HT Hne Hc Hr H1 H2)
    as (r' & G1 & G2 & _).
  exists r'. split; [exact G1 |]. rewrite G2. reflexivity.
Defined.

(** What one call of the callback of [subscribe] leaves, outside a
    replay: still no replay, and the key is desired unless it was ignored
    (unknown topic) or superseded by its bare topic. *)
Lemma subscribe_event_settles (e : string) (r : Runtime) :
  replaying r = false ->
  replaying (subscribe_event e r) = false /\
  (In e (DesiredSet (subscribe_event e r)) \/ subscribe_event e r = r).
Proof.
  intros Hrep. unfold replaying, DesiredSet in *. unfold subscribe_event. rewrite Hrep, orb_false_r.
  destruct (includes (wsEvents (this r)) e) eqn:Hin; cbn [negb]; [auto |].
  destruct (is_public_topic (event_topic e)).
  - destruct (truthy (event_symbol e)).
    + destruct (includes (wsEvents (this r)) (interpolate (event_topic e))); cbn [negb]; [auto |].
      rewrite this_ws_send, Hrep. cbn [negb assign this set_wsEvents wsEvents initialConnection].
      rewrite ?this_ws_send. split; [exact Hrep |]. left. apply union_In. right. now left.
    + rewrite this_ws_send, Hrep. cbn [negb assign this set_wsEvents wsEvents initialConnection].
      rewrite ?this_ws_send. split; [exact Hrep |]. left. apply union_In. right. now left.
  - destruct (is_private_topic_subscribe (event_topic e)); [| auto].
    rewrite this_ws_send, Hrep. cbn [negb assign this set_wsEvents wsEvents initialConnection].
    rewrite ?this_ws_send. split; [exact Hrep |]. left. apply union_In. right. now left.
Qed.

(** X7.  Asking twice for the same key writes at most once: outside a replay,
    a second [subscribe] of the key just subscribed returns normally,
    writes nothing and changes nothing. *)
Theorem subscribe_twice_is_once (e : string) (r : Runtime) :
  wsConnected r = true -> replaying r = false ->
  subscribe [e] (snd (subscribe [e] r)) = (Normal, snd (subscribe [e] r)).
Proof.
  intros Hc Hrep.
  assert (wsConnected (snd (subscribe [e] r)) = true) as Hc'.
  { rewrite <- Hc. apply connection_view_connected. apply connection_view_calls. }
  unfold subscribe at 1. rewrite Hc'. f_equal. cbn [each foldl].
  unfold subscribe. rewrite Hc. cbn [snd each foldl].
  destruct (subscribe_event_settles e r Hrep) as (Hrep' & [Hin | Heq]).
  - now apply subscribe_event_present.
  - now rewrite !Heq.
Qed.

Lemma subscribe_twice_is_once_witness :
  subscribe ["wallet"] (snd (subscribe ["wallet"] (opened ["orderbook"])))
  = (Normal, snd (subscribe ["wallet"] (opened ["orderbook"]))).
Proof.
  apply subscribe_twice_is_once; vm_compute; reflexivity.
Defined.

(** X8.  The keys of one call are handled in the order they are given, and a
    call with a list does what consecutive calls with its parts do. *)
Theorem calls_compose (l1 l2 : list string) (r : Runtime) :
  wsConnected r = true ->
  subscribe (l1 ++ l2) r = subscribe l2 (snd (subscribe l1 r)) /\
  unsubscribe (l1 ++ l2) r = unsubscribe l2 (snd (unsubscribe l1 r)).
Proof.
  intros Hc. destruct (connection_view_calls l1 r) as [H1 H2].
  apply connection_view_connected in H1, H2. rewrite Hc in H1, H2.
  unfold subscribe at 1 2, unsubscribe at 1 2. rewrite H1, H2, Hc.
  unfold subscribe, unsubscribe. rewrite Hc. cbn [snd]. unfold each.
  now rewrite !foldl_app.
Qed.

Lemma opened_orderbook_is_connected : wsConnected (opened ["orderbook"]) = true.
Proof. vm_compute. reflexivity. Qed.

Lemma opened_orderbook_not_replaying : replaying (opened ["orderbook"]) = false.
Proof. vm_compute. reflexivity. Qed.

Lemma calls_compose_witness :
  subscribe (["order"] ++ ["wallet"]) (opened ["orderbook"])
  = subscribe ["wallet"] (snd (subscribe ["order"] (opened ["orderbook"]))).
Proof.
  exact (proj1 (calls_compose ["order"] ["wallet"] (opened ["orderbook"])
                  opened_orderbook_is_connected)).
Defined.

(** X9.  A key of [order], [wallet], [deposit], [withdrawal] or [admin] that is
    subscribed and then unsubscribed: the two messages are written, and
    the DesiredSet holds the keys it held before. *)
Theorem subscribe_then_unsubscribe (r : Runtime) (T e : string) :
  private_unsubscribable T -> event_topic e = Some T ->
  wsConnected r = true -> replaying r = false -> ~ In e (DesiredSet r) ->
  fst (unsubscribe [e] (snd (subscribe [e] r))) = Normal /\
  sent (snd (unsubscribe [e] (snd (subscribe [e] r))))
  = (sent r ++ [wire_text "subscribe" T; wire_text "unsubscribe" T])%list /\
  (forall x, In x (DesiredSet (snd (unsubscribe [e] (snd (subscribe [e] r)))))
             <-> In x (DesiredSet r)).
Proof.
  intros HT Ht Hc Hrep Hnot.
  assert (private T) as HT' by (unfold private; destruct HT as [-> | [-> | [-> | [-> | ->]]]]; tauto).
  destruct (private_unsubscribable_cases T HT) as (Hpub & Hpriv & _ & Hmsg).
  unfold subscribe at 1 2 3. rewrite Hc. cbn [snd each foldl].
  rewrite (subscribe_event_private r T e HT' Ht Hrep Hnot).
  set (r1 := assign _ _).
  assert (wsConnected r1 = true) as Hc1.
  { unfold r1. now rewrite wsConnected_set_wsEvents, wsConnected_ws_send. }
  assert (includes (wsEvents (this r1)) e = true) as Hin1.
  { apply includes_In. unfold r1. cbn [assign this set_wsEvents wsEvents].
    apply union_In. right. now left. }
  unfold unsubscribe. rewrite Hc1. cbn [fst snd each foldl].
  unfold unsubscribe_event. rewrite Hin1, Ht, Hpub, Hpriv. cbn [interpolate].
  split; [reflexivity |]. split.
  - rewrite sent_set_wsEvents, sent_ws_send by assumption.
    unfold r1. rewrite sent_set_wsEvents, sent_ws_send by assumption.
    rewrite Hmsg, (subscribe_message_private T HT'), <- app_assoc. reflexivity.
  - intros x. unfold DesiredSet. cbn [assign this set_wsEvents wsEvents].
    rewrite ?this_ws_send, filter_neq_In. unfold r1. cbn [assign this set_wsEvents wsEvents].
    rewrite ?this_ws_send, union_In. simpl. unfold DesiredSet in Hnot. split.
    + intros [[H | [H | []]] Hne]; [exact H | congruence].
    + intros H. split; [now left | congruence].
Qed.

Lemma wallet_not_desired : ~ In "wallet" (DesiredSet (opened ["orderbook"])).
Proof. vm_compute. intros [H | []]. discriminate H. Qed.

Lemma subscribe_then_unsubscribe_witness :
  sent (snd (unsubscribe ["wallet"] (snd (subscribe ["wallet"] (opened ["orderbook"])))))
  = (sent (opened ["orderbook"])
     ++ [wire_text "subscribe" "wallet"; wire_text "unsubscribe" "wallet"])%list.
Proof.
  exact (proj1 (proj2
           (subscribe_then_unsubscribe (opened ["orderbook"]) "wallet" "wallet"
              (or_intror (or_introl eq_refl)) eq_refl
              opened_orderbook_is_connected opened_orderbook_not_replaying
              wallet_not_desired))).
Defined.

Lemma uniq_from_NoDup (l seen : list string) : List.NoDup (uniq_from seen l).
Proof.
  revert seen. induction l as [|x l IH]; intros seen; cbn [uniq_from]; [apply List.NoDup_nil |].
  destruct (includes seen x); [apply IH |].
  apply List.NoDup_cons; [| apply IH]. intros Hin. apply uniq_from_In in Hin.
  destruct Hin as [_ H]. apply H. now left.
Qed.

(** X10.  [subscribe] and [unsubscribe] never put a key twice into a
    DesiredSet that has no duplicates. *)
Theorem desired_set_stays_duplicate_free (events : list string) (r : Runtime) :
  List.NoDup (DesiredSet r) ->
  List.NoDup (DesiredSet (snd (subscribe events r))) /\
  List.NoDup (DesiredSet (snd (unsubscribe events r))).
Proof.
  intros H. unfold subscribe, unsubscribe. destruct (wsConnected r); cbn [snd]; [| now split].
  split.
  - apply (each_preserves (fun s => List.NoDup (DesiredSet s))); [| exact H].
    intros x s Hs. unfold DesiredSet in *. unfold subscribe_event.
    repeat match goal with
           | |- context [if ?b then _ else _] => destruct b
           end;
      cbn [assign this set_wsEvents wsEvents]; rewrite ?this_ws_send;
      first [exact Hs | apply uniq_from_NoDup].
  - apply (each_preserves (fun s => List.NoDup (DesiredSet s))); [| exact H].
    intros x s Hs. unfold DesiredSet in *. unfold unsubscribe_event.
    repeat match goal with
           | |- context [if ?b then _ else _] => destruct b
           end;
      cbn [assign this set_wsEvents wsEvents]; rewrite ?this_ws_send;
      first [exact Hs | now apply List.NoDup_filter].
Qed.

Lemma opened_orderbook_duplicate_free : List.NoDup (DesiredSet (opened ["orderbook"])).
Proof. vm_compute. apply List.NoDup_cons; [intros [] | apply List.NoDup_nil]. Qed.

Lemma desired_set_stays_duplicate_free_witness :
  List.NoDup (DesiredSet (snd (subscribe ["wallet"; "orderbook"; "wallet"] (opened ["orderbook"])))).
Proof.
  exact (proj1 (desired_set_stays_duplicate_free ["wallet"; "orderbook"; "wallet"]
                  (opened ["orderbook"]) opened_orderbook_duplicate_free)).
Defined.

(** ** [disconnect] *)

(** X11.  After [disconnect] has returned, the socket is closing and the
    instance is no longer connected: a second [disconnect], and any
    [subscribe] or [unsubscribe], throw and change nothing. *)
Theorem calls_after_disconnect_throw (events : list string) (r : Runtime) :
  wsConnected r = true ->
  disconnect (snd (disconnect r)) = (Throw not_connected, snd (disconnect r)) /\
  subscribe events (snd (disconnect r)) = (Throw not_connected, snd (disconnect r)) /\
  unsubscribe events (snd (disconnect r)) = (Throw not_connected, snd (disconnect r)).
Proof.
  intros Hc. destruct (wsConnected_socket r Hc) as (i & s & Hi & Hs & Hr).
  assert (wsConnected (snd (disconnect r)) = false) as Hc'.
  { unfold disconnect. rewrite Hc. cbn [snd].
    unfold wsConnected, current_socket, ws_close.
    cbn [assign this set_wsReconnect ws]. rewrite Hi.
    cbn [assign this set_wsReconnect ws sockets set_sockets mbind option_bind].
    rewrite Hi. cbn [mbind option_bind].
    rewrite list_lookup_alter_eq, Hs. cbn [fmap option_fmap option_map]. now rewrite Hr. }
  unfold disconnect at 1, subscribe, unsubscribe. now rewrite Hc'.
Qed.

Lemma calls_after_disconnect_throw_witness :
  disconnect (snd (disconnect (opened ["orderbook"])))
  = (Throw not_connected, snd (disconnect (opened ["orderbook"]))).
Proof.
  exact (proj1 (calls_after_disconnect_throw [] (opened ["orderbook"])
                  opened_orderbook_is_connected)).
Defined.

(** ** [connect] beyond the claims *)

Section ConnectMore.

Variable createSignature : string -> string -> string -> Z -> string.

Lemma tables_ws_on_other (name : string) (l : Listener) (r : Runtime) (t : nat) :
  (forall s, current_socket r = Some s -> _events s <> t) ->
  tables (ws_on name l r) !! t = tables r !! t.
Proof.
  intros H. unfold ws_on. destruct (current_socket r) as [s|] eqn:E; [| reflexivity].
  cbn [set_tables tables]. apply list_lookup_alter_ne. now apply H.
Qed.

(** X12.  [connect] adds one socket and touches nothing that exists: every
    socket constructed before keeps its URL, state, event table and
    frames (so a session that is open is not closed by a second
    [connect]), every event table keeps its listeners, and the pending
    timers stay. *)
Theorem connect_touches_nothing_old (now : Z) (events : list string) (r : Runtime) :
  length (sockets (connect createSignature now events r)) = S (length (sockets r)) /\
  (forall j s, sockets r !! j = Some s ->
               sockets (connect createSignature now events r) !! j = Some s) /\
  (forall t tbl, tables r !! t = Some tbl ->
                 tables (connect createSignature now events r) !! t = Some tbl) /\
  timers (connect createSignature now events r) = timers r.
Proof.
  destruct (connect_socket createSignature now events r) as (_ & _ & _ & _ & _ & _ & Hlen).
  split; [exact Hlen |].
  unfold connect.
  set (r4 := new_WebSocket _ _).
  assert (sockets r4 = (sockets r ++ [mkWebSocket (connect_url createSignature now (this r))
                                         CONNECTING (length (tables r)) []])%list) as Hs4
    by reflexivity.
  assert (tables r4 = (tables r ++ [∅])%list) as Ht4 by reflexivity.
  assert (ws (this r4) = Some (length (sockets r))) as Hws4 by reflexivity.
  assert (forall s, current_socket r4 = Some s -> _events s = length (tables r)) as Hcur.
  { intros s. unfold current_socket. rewrite Hws4, Hs4. cbn [mbind option_bind].
    rewrite lookup_snoc. now intros [= <-]. }
  assert (timers r4 = timers r) as Htm4 by reflexivity.
  destruct (wsEventListeners (this r4)) as [t0|].
  - unfold ws_set__events. rewrite Hws4. cbn [set_sockets sockets tables timers].
    split; [| split; [| exact Htm4]].
    + intros j s Hj. rewrite list_lookup_alter_ne, Hs4.
      * now apply lookup_app_l_Some.
      * apply lookup_lt_Some in Hj. lia.
    + intros t tbl Ht. rewrite Ht4. now apply lookup_app_l_Some.
  - rewrite !sockets_ws_on, !timers_ws_on.
    split; [| split; [| exact Htm4]].
    + intros j s Hj. rewrite Hs4. now apply lookup_app_l_Some.
    + intros t tbl Ht.
      assert (length (tables r) <> t) as Hne by (apply lookup_lt_Some in Ht; lia).
      rewrite !tables_ws_on_other.
      * rewrite Ht4. now apply lookup_app_l_Some.
      * intros s Hs. now rewrite (Hcur s Hs).
      * intros s Hs. rewrite current_socket_ws_on in Hs. now rewrite (Hcur s Hs).
      * intros s Hs. rewrite !current_socket_ws_on in Hs. now rewrite (Hcur s Hs).
      * intros s Hs. rewrite !current_socket_ws_on in Hs. now rewrite (Hcur s Hs).
Qed.

End ConnectMore.

(** ** The ['open'] listener *)

Lemma ping_message_text : ping_message = ping_text.
Proof. reflexivity. Qed.

(** X13.  Whenever the ['open'] listener runs on an open socket, in a replay or
    not, it returns normally and starts one heartbeat on that socket, with
    the frame [{"op":"ping"}], a ping every 25000 ms and a timeout of
    60000 ms; the heartbeats started before stay. *)
Theorem open_starts_heartbeat (r : Runtime) :
  wsConnected r = true ->
  exists r' i,
    on_open r = (Normal, r') /\
    ws (this r) = Some i /\
    heartbeats r' = (heartbeats r ++ [mkHeartbeat i ping_text 60000 25000])%list.
Proof.
  intros Hc. destruct (wsConnected_socket r Hc) as (i & s & Hi & _).
  destruct (connection_view_calls (wsEvents (this r)) r) as [Hv _].
  unfold on_open.
  assert (exists r1, (if (0 <? length (wsEvents (this r)))%nat
                      then subscribe (wsEvents (this r)) r else (Normal, r)) = (Normal, r1)
                     /\ connection_view r1 = connection_view r) as (r1 & -> & Hv1).
  { destruct (0 <? length (wsEvents (this r)))%nat; [| now exists r].
    unfold subscribe in *. rewrite Hc in *. eexists. split; [reflexivity | exact Hv]. }
  assert (ws (this r1) = Some i) as Hi1.
  { unfold connection_view in Hv1. congruence. }
  assert (heartbeats r1 = heartbeats r) as Hh1.
  { unfold connection_view in Hv1. congruence. }
  cbn [assign this set_initialConnection ws]. rewrite Hi1.
  exists (set_heartbeats (heartbeats (assign (set_initialConnection false) r1)
                          ++ [mkHeartbeat i ping_message 60000 25000])%list
            (assign (set_initialConnection false) r1)), i.
  split; [reflexivity |]. split; [exact Hi |].
  cbn [set_heartbeats heartbeats assign]. now rewrite Hh1, ping_message_text.
Qed.

Lemma open_starts_heartbeat_witness :
  exists r' i,
    on_open (just_opened ["orderbook"]) = (Normal, r') /\
    ws (this (just_opened ["orderbook"])) = Some i /\
    heartbeats r' = (heartbeats (just_opened ["orderbook"])
                     ++ [mkHeartbeat i ping_text 60000 25000])%list.
Proof.
  apply open_starts_heartbeat. vm_compute. reflexivity.
Defined.

(** ** The constructor *)

Lemma split_without_separator (s cur : string) :
  str_includes s "://" = false -> split_from "://" cur s 0 = [cur ++ s].
Proof.
  revert cur. induction s as [|c s IH]; intros cur H.
  - cbn [split_from]. now rewrite string_app_nil_r.
  - cbn [str_includes] in H. apply orb_false_elim in H. destruct H as [Hp Hs].
    cbn [split_from]. rewrite Hp, (IH _ Hs), string_app_assoc. reflexivity.
Qed.

Lemma prefix_empty (s : string) : String.prefix EmptyString s = true.
Proof. now destruct s. Qed.

Lemma split_https (endpoint : string) :
  str_includes endpoint "://" = false ->
  split ("https://" ++ endpoint) "://" = ["https"; endpoint].
Proof.
  intros H. unfold split. push_append. simpl. rewrite prefix_empty. push_append.
  now rewrite (split_without_separator endpoint EmptyString H).
Qed.

Lemma split_http (endpoint : string) :
  str_includes endpoint "://" = false ->
  split ("http://" ++ endpoint) "://" = ["http"; endpoint].
Proof.
  intros H. unfold split. push_append. simpl. rewrite prefix_empty. push_append.
  now rewrite (split_without_separator endpoint EmptyString H).
Qed.

(** X14.  The stream URL the constructor derives.  A [wsURL] option that is set
    and not empty is taken as it is.  Without one, an [apiURL]
    [https://<endpoint>] gives [wss://<endpoint>/stream] and an [apiURL]
    [http://<endpoint>] gives [ws://<endpoint>/stream] (for an endpoint
    that does not contain [://] itself); with no [apiURL] either, the
    stream URL is [wss://api.hollaex.com/stream].  The instance starts
    with no socket, an empty DesiredSet, reconnection on, a reconnect
    interval of 5000 ms and no kept listeners. *)
Theorem constructor_stream_url (opts : Options) :
  (truthy (opt_wsURL opts) = true -> Some (wsUrl (constructor opts)) = opt_wsURL opts) /\
  (forall endpoint,
      truthy (opt_wsURL opts) = false -> str_includes endpoint "://" = false ->
      (opt_apiURL opts = Some ("https://" ++ endpoint) ->
       wsUrl (constructor opts) = "wss://" ++ endpoint ++ "/stream") /\
      (opt_apiURL opts = Some ("http://" ++ endpoint) ->
       wsUrl (constructor opts) = "ws://" ++ endpoint ++ "/stream")) /\
  (truthy (opt_wsURL opts) = false -> truthy (opt_apiURL opts) = false ->
   wsUrl (constructor opts) = "wss://api.hollaex.com/stream") /\
  ws (constructor opts) = None /\
  wsEvents (constructor opts) = [] /\
  wsReconnect (constructor opts) = true /\
  wsReconnectInterval (constructor opts) = 5000%Z /\
  wsEventListeners (constructor opts) = None.
Proof.
  split; [| split; [| split; [| repeat split]]].
  - unfold constructor. cbn [wsUrl]. intros H. rewrite H.
    destruct (opt_wsURL opts); [reflexivity | discriminate].
  - intros endpoint Hws Hend. unfold constructor. cbn [wsUrl]. rewrite Hws. split; intros ->.
    + unfold or_else. push_append. cbn [String.eqb Ascii.eqb].
      change (String "h" (String "t" (String "t" (String "p" (String "s"
               (String ":" (String "/" (String "/" endpoint))))))))
        with ("https://" ++ endpoint).
      rewrite (split_https endpoint Hend). reflexivity.
    + unfold or_else. push_append. cbn [String.eqb Ascii.eqb].
      change (String "h" (String "t" (String "t" (String "p"
               (String ":" (String "/" (String "/" endpoint)))))))
        with ("http://" ++ endpoint).
      rewrite (split_http endpoint Hend). reflexivity.
  - intros Hws Hapi. unfold constructor. cbn [wsUrl]. rewrite Hws.
    assert (or_else (opt_apiURL opts) "https://api.hollaex.com" = "https://api.hollaex.com") as ->.
    { unfold or_else, truthy in *. destruct (opt_apiURL opts) as [s|]; [| reflexivity].
      apply negb_false_iff in Hapi. now rewrite Hapi. }
    reflexivity.
Qed.

Lemma constructor_stream_url_witness :
  wsUrl (constructor (mkOptions (Some ("https://" ++ "exchange.example.com/api")) None None
                                None None None))
  = "wss://" ++ "exchange.example.com/api" ++ "/stream".
Proof.
  exact (proj1 (proj1 (proj2 (constructor_stream_url
           (mkOptions (Some ("https://" ++ "exchange.example.com/api")) None None None None None)))
           "exchange.example.com/api" eq_refl eq_refl) eq_refl).
Defined.

(** ** What a run keeps *)

Lemma view_config (r r' : Runtime) :
  connection_view r' = connection_view r -> config (this r') = config (this r).
Proof. unfold connection_view. congruence. Qed.

Lemma config_ws_close (r : Runtime) : config (this (ws_close r)) = config (this r).
Proof. now rewrite this_ws_close. Qed.

Lemma config_reconnect_or_drop (s : WebSocket) (r : Runtime) :
  config (this (reconnect_or_drop s r)) = config (this r).
Proof. unfold reconnect_or_drop. now destruct (wsReconnect (this r)). Qed.

Lemma config_on_open (r : Runtime) : config (this (snd (on_open r))) = config (this r).
Proof.
  unfold on_open.
  assert (config (this (snd (if (0 <? length (wsEvents (this r)))%nat
                             then subscribe (wsEvents (this r)) r else (Normal, r))))
          = config (this r)) as H.
  { destruct (0 <? length (wsEvents (this r)))%nat; [| reflexivity].
    apply view_config, connection_view_calls. }
  destruct (if (0 <? length (wsEvents (this r)))%nat
            then subscribe (wsEvents (this r)) r else (Normal, r)) as [[|e] r1];
    cbn [snd] in *; [| exact H].
  cbn [assign this set_initialConnection ws]. now destruct (ws (this r1)).
Qed.

Lemma config_call_listeners (name : string) (ls : list Listener) (r : Runtime) :
  config (this (snd (call_listeners name ls r))) = config (this r).
Proof.
  revert r. induction ls as [|l ls IH]; intros r; cbn [call_listeners]; [reflexivity |].
  assert (config (this (snd (call_listener name l r))) = config (this r)) as H.
  { destruct l; cbn [call_listener]; try reflexivity; try apply config_on_open.
    - unfold on_error. destruct (current_socket r) as [s|]; [| reflexivity].
      destruct (readyState s); cbn [snd];
        first [reflexivity | apply config_ws_close | apply config_reconnect_or_drop].
    - unfold on_error. destruct (current_socket r) as [s|]; [| reflexivity].
      destruct (readyState s); cbn [snd];
        first [reflexivity | apply config_ws_close | apply config_reconnect_or_drop].
    - unfold on_close. destruct (wsReconnect (this r)) eqn:E; [| reflexivity].
      destruct (current_socket r) as [s|]; [| reflexivity].
      cbn [snd]. apply config_reconnect_or_drop. }
  destruct (call_listener name l r) as [[|e] r1]; cbn [snd] in *; [| exact H].
  now rewrite IH.
Qed.

Section Runs.

Variable createSignature : string -> string -> string -> Z -> string.

Lemma config_connect (now : Z) (events : list string) (r : Runtime) :
  config (this (connect createSignature now events r)) = config (this r).
Proof.
  unfold connect. destruct (wsEventListeners _).
  - unfold ws_set__events. now destruct (ws _).
  - now rewrite !this_ws_on.
Qed.

Lemma config_exec (st : Step) (r : Runtime) :
  config (this (snd (exec createSignature st r))) = config (this r).
Proof.
  destruct st; cbn [exec].
  - apply config_connect.
  - unfold disconnect. destruct (wsConnected r); [| reflexivity]. cbn [snd].
    now rewrite config_ws_close.
  - apply view_config, connection_view_calls.
  - apply view_config, connection_view_calls.
  - unfold caller_on. destruct (ws (this r)); [| reflexivity]. cbn [snd]. now rewrite this_ws_on.
  - destruct (readyState <$> sockets r !! i) as [[]|]; try reflexivity.
    unfold emit. now rewrite config_call_listeners.
  - destruct (readyState <$> sockets r !! i) as [[]|]; try reflexivity;
      unfold emit; now rewrite config_call_listeners.
  - now destruct (readyState <$> sockets r !! i) as [[]|].
  - unfold emit. now rewrite config_call_listeners.
  - destruct (timers r); [reflexivity |]. cbn [snd]. now rewrite config_connect.
Qed.

Lemma config_run (steps : list Step) (r : Runtime) :
  config (this (run createSignature steps r)) = config (this r).
Proof.
  revert r. unfold run. induction steps as [|st steps IH]; intros r; cbn [foldl]; [reflexivity |].
  now rewrite IH, config_exec.
Qed.

(** X15.  No call, socket event or timer changes what the constructor fixed:
    the API URL, key, secret and expiry window, the stream URL and the
    reconnect interval are the same after any run; from a fresh instance
    the reconnect interval stays 5000 ms. *)
Theorem configuration_is_constant (steps : list Step) (r : Runtime) :
  config (this (run createSignature steps r)) = config (this r) /\
  (forall opts, wsReconnectInterval (this (run createSignature steps (boot opts))) = 5000%Z).
Proof.
  split; [apply config_run |]. intros opts. pose proof (config_run steps (boot opts)) as H.
  unfold config in H. injection H as _ _ _ _ _ _ H. exact H.
Qed.

(** Without a call of [connect], nothing undoes a [disconnect] on which
    no timer is pending: [wsReconnect] stays off, no timer is armed and
    no socket is constructed. *)
Lemma stopped_exec (st : Step) (r : Runtime) :
  match st with CallConnect _ _ => False | _ => True end ->
  wsReconnect (this r) = false -> timers r = [] ->
  wsReconnect (this (snd (exec createSignature st r))) = false /\
  timers (snd (exec createSignature st r)) = [] /\
  length (sockets (snd (exec createSignature st r))) = length (sockets r).
Proof.
  intros Hst Hrec Htim.
  assert (forall r0 r1, connection_view r1 = connection_view r0 ->
                        wsReconnect (this r0) = false -> timers r0 = [] ->
                        wsReconnect (this r1) = false /\ timers r1 = [] /\
                        length (sockets r1) = length (sockets r0)) as Hview.
  { intros r0 r1 Hv H1 H2.
    assert (skeleton r1 = skeleton r0) as Hsk by (unfold connection_view in Hv; congruence).
    split; [unfold connection_view in Hv; congruence |].
    split; [unfold skeleton in Hsk; congruence | now apply skeleton_length]. }
  assert (forall name ls r0, wsReconnect (this r0) = false -> timers r0 = [] ->
            wsReconnect (this (snd (call_listeners name ls r0))) = false /\
            timers (snd (call_listeners name ls r0)) = [] /\
            length (sockets (snd (call_listeners name ls r0))) = length (sockets r0)) as Hlis.
  { intros name ls. induction ls as [|l ls IH]; intros r0 H1 H2; cbn [call_listeners]; [auto |].
    assert (wsReconnect (this (snd (call_listener name l r0))) = false /\
            timers (snd (call_listener name l r0)) = [] /\
            length (sockets (snd (call_listener name l r0))) = length (sockets r0)) as (G1 & G2 & G3).
    { assert (wsReconnect (this (snd (on_error r0))) = false /\
              timers (snd (on_error r0)) = [] /\
              length (sockets (snd (on_error r0))) = length (sockets r0)) as Herr.
      { unfold on_error. destruct (current_socket r0) as [s|]; [| auto].
        destruct (readyState s); cbn [snd]; auto.
        - unfold reconnect_or_drop. rewrite H1. auto.
        - unfold ws_close. destruct (ws (this r0)); [| auto].
          cbn [set_sockets this timers sockets]. rewrite length_alter. auto.
        - unfold reconnect_or_drop. rewrite H1. auto. }
      destruct l; cbn [call_listener]; auto.
      - unfold on_close. rewrite H1. auto.
      - unfold on_open.
        assert (exists c r1, (if (0 <? length (wsEvents (this r0)))%nat
                              then subscribe (wsEvents (this r0)) r0 else (Normal, r0)) = (c, r1)
                             /\ connection_view r1 = connection_view r0) as (c & r1 & -> & Hv).
        { destruct (0 <? length (wsEvents (this r0)))%nat; [| now exists Normal, r0].
          destruct (subscribe (wsEvents (this r0)) r0) as [c r1] eqn:E.
          exists c, r1. split; [reflexivity |].
          change r1 with (snd (c, r1)). rewrite <- E. apply connection_view_calls. }
        destruct (Hview r0 r1 Hv H1 H2) as (K1 & K2 & K3).
        destruct c; cbn [snd]; [| auto].
        cbn [assign this set_initialConnection ws]. destruct (ws (this r1)); cbn [snd]; auto. }
    destruct (call_listener name l r0) as [[|e] r1]; cbn [snd] in *; [| auto].
    destruct (IH r1 G1 G2) as (K1 & K2 & K3). rewrite K3. auto. }
  assert (forall (f : WebSocket -> WebSocket) i name,
            wsReconnect (this (snd (emit i name (set_sockets (alter f i (sockets r)) r)))) = false /\
            timers (snd (emit i name (set_sockets (alter f i (sockets r)) r))) = [] /\
            length (sockets (snd (emit i name (set_sockets (alter f i (sockets r)) r))))
            = length (sockets r)) as Hemit.
  { intros f i name. unfold emit.
    destruct (Hlis name (listeners i name (set_sockets (alter f i (sockets r)) r))
                   (set_sockets (alter f i (sockets r)) r) Hrec Htim) as (K1 & K2 & K3).
    cbn [set_sockets sockets] in K3. rewrite length_alter in K3. auto. }
  destruct st; cbn [exec]; try contradiction.
  - unfold disconnect. destruct (wsConnected r); [| auto]. cbn [snd].
    unfold ws_close. cbn [assign this set_wsReconnect ws].
    destruct (ws (this r)); cbn [set_sockets assign this timers sockets wsReconnect set_wsReconnect];
      rewrite ?length_alter; auto.
  - apply Hview; auto. apply connection_view_calls.
  - apply Hview; auto. apply connection_view_calls.
  - unfold caller_on. destruct (ws (this r)); [| auto]. cbn [snd].
    now rewrite this_ws_on, timers_ws_on, sockets_ws_on.
  - destruct (readyState <$> sockets r !! i) as [[]|]; auto.
  - destruct (readyState <$> sockets r !! i) as [[]|]; auto.
  - destruct (readyState <$> sockets r !! i) as [[]|]; cbn [snd set_sockets this timers sockets];
      rewrite ?length_alter; auto.
  - apply Hlis; auto.
  - rewrite Htim. auto.
Qed.

(** X16.  [disconnect] is final when no reconnect timer is pending: after it
    has returned, no run of socket events, timer firings, listener
    registrations, and calls other than [connect] constructs a socket,
    arms a timer or turns [wsReconnect] back on. *)
Theorem disconnect_is_final_without_timer (steps : list Step) (r : Runtime) :
  wsConnected r = true -> timers r = [] -> no_connect_call steps ->
  fst (disconnect r) = Normal /\
  length (sockets (run createSignature steps (snd (disconnect r)))) = length (sockets r) /\
  wsReconnect (this (run createSignature steps (snd (disconnect r)))) = false /\
  timers (run createSignature steps (snd (disconnect r))) = [].
Proof.
  intros Hc Htim Hsteps.
  assert (fst (disconnect r) = Normal) as H0 by (unfold disconnect; now rewrite Hc).
  split; [exact H0 |].
  destruct (stopped_exec CallDisconnect (assign (set_wsReconnect false) r) I eq_refl Htim)
    as (H1 & H2 & H3).
  assert (snd (exec createSignature CallDisconnect (assign (set_wsReconnect false) r))
          = snd (disconnect r)) as E.
  { cbn [exec]. unfold disconnect.
    change (wsConnected (assign (set_wsReconnect false) r)) with (wsConnected r).
    now rewrite Hc. }
  rewrite E in H1, H2, H3. change (sockets (assign (set_wsReconnect false) r)) with (sockets r) in H3.
  rewrite <- H3. revert H1 H2. generalize (snd (disconnect r)). clear E H3 H0.
  unfold run. induction Hsteps as [|st steps Hst _ IH]; intros r0 H1 H2; cbn [foldl]; [auto |].
  destruct (stopped_exec st r0 Hst H1 H2) as (K1 & K2 & K3).
  destruct (IH _ K1 K2) as (G1 & G2 & G3). rewrite G1, K3. auto.
Qed.

End Runs.

Lemma disconnect_is_final_without_timer_witness :
  length (sockets (run example_signature
                       [SocketCloses 0; TimerFires 1700000009; SocketOpens 0;
                        CallSubscribe ["wallet"]]
                       (snd (disconnect (opened ["orderbook"])))))
  = length (sockets (opened ["orderbook"])).
Proof.
  refine (proj1 (proj2 (disconnect_is_final_without_timer example_signature
            [SocketCloses 0; TimerFires 1700000009; SocketOpens 0; CallSubscribe ["wallet"]]
            (opened ["orderbook"]) opened_orderbook_is_connected _ _))).
  - vm_compute. reflexivity.
  - repeat constructor.
Defined.

(** ** Reconnects beyond the claims *)

Lemma session_of_view (rs : ReadyState) (t i : nat) (tbl : EventTable) (r r' : Runtime) :
  connection_view r' = connection_view r -> session rs t i tbl r -> session rs t i tbl r'.
Proof.
  intros Hv (Hws & (s & Hs & Hr & He) & Hlen & Hrec & Htim & Htbl).
  assert (skeleton r' = skeleton r) as Hsk by (unfold connection_view in Hv; congruence).
  destruct (skeleton_socket r r' i s Hsk Hs) as (s' & Hs' & Hr' & He').
  unfold session. split; [unfold connection_view in Hv; congruence |].
  split; [exists s'; split; [exact Hs' | split; congruence] |].
  split; [now rewrite (skeleton_length r r' Hsk) |].
  split; [unfold connection_view in Hv; congruence |].
  unfold skeleton in Hsk. split; congruence.
Qed.


Section ReconnectMore.

Variable createSignature : string -> string -> string -> Z -> string.

(** The session right after [connect] and the first opening. *)
Lemma plain_session (opts : Options) (now : Z) (events : list string) :
  session OPEN 0 0 fresh_table
    (run createSignature [CallConnect now events; SocketOpens 0] (boot opts)) /\
  replaying (run createSignature [CallConnect now events; SocketOpens 0] (boot opts)) = false /\
  sent (run createSignature [CallConnect now events; SocketOpens 0] (boot opts))
  = replay_plan events /\
  DesiredSet (run createSignature [CallConnect now events; SocketOpens 0] (boot opts)) = events.
Proof.
  unfold run. cbn [foldl].
  change (snd (exec createSignature (CallConnect now events) (boot opts)))
    with (connect createSignature now events (boot opts)).
  destruct (connect_fresh createSignature now events (boot opts) eq_refl eq_refl)
    as (Ha & Hrep & Hsent).
  change (length (tables (boot opts))) with 0%nat in Ha.
  change (length (sockets (boot opts))) with 0%nat in Ha.
  destruct (socket_opens createSignature 0 0 _ _ kit_table_fresh Ha Hrep)
    as (Hc & Hrep' & Hsent' & Hd).
  split; [exact Hc |]. split; [exact Hrep' |].
  rewrite Hsent', Hsent, Hd, (DesiredSet_connect createSignature). auto.
Qed.

Lemma edits_keep_session (edits : list Step) (rs : ReadyState) (t i : nat) (tbl : EventTable)
    (r : Runtime) :
  edits_only edits -> session rs t i tbl r -> session rs t i tbl (run createSignature edits r).
Proof.
  intros He. revert r. unfold run.
  induction He as [|st edits Hst _ IH]; intros r Hs; cbn [foldl]; [exact Hs |].
  apply IH. destruct st; try contradiction; cbn [exec].
  - eapply session_of_view; [apply connection_view_calls | exact Hs].
  - eapply session_of_view; [apply connection_view_calls | exact Hs].
Qed.

(** X17.  What the caller wants survives a reconnect: after [connect], the
    first opening and any calls of [subscribe] and [unsubscribe], every
    failure followed by its reconnect leaves the DesiredSet as those calls
    left it, and the socket that is live after the last reconnect has been
    written exactly the replay of that DesiredSet, without any call of the
    caller. *)
Theorem reconnect_replays_desired_set (opts : Options) (now : Z) (events : list string)
    (edits : list Step) (fs : list (Failure * Z)) :
  edits_only edits -> fs <> [] ->
  connection_state
    (run createSignature (cycles_from 0 fs) (edited_session createSignature opts now events edits))
  = Open /\
  DesiredSet
    (run createSignature (cycles_from 0 fs) (edited_session createSignature opts now events edits))
  = DesiredSet (edited_session createSignature opts now events edits) /\
  sent
    (run createSignature (cycles_from 0 fs) (edited_session createSignature opts now events edits))
  = replay_plan (DesiredSet (edited_session createSignature opts now events edits)).
Proof.
  intros He Hfs. unfold edited_session. rewrite run_app.
  destruct (plain_session opts now events) as (H0 & _).
  pose proof (edits_keep_session edits _ _ _ _ _ He H0) as H1.
  destruct (many_cycles createSignature fs 0 0 _ _ kit_table_fresh H1) as (H2 & Hd & _ & Hs).
  split; [| split; [exact Hd | now apply Hs]].
  destruct H2 as (Hws & (s & Hs' & Hr & _) & _).
  unfold connection_state, current_socket. rewrite Hws. cbn [mbind option_bind].
  now rewrite Hs', Hr.
Qed.


End ReconnectMore.

Lemma reconnect_replays_desired_set_witness :
  sent (run example_signature (cycles_from 0 three_failures)
          (edited_session example_signature no_options 1700000000 ["orderbook"]
             [CallSubscribe ["wallet"]; CallUnsubscribe ["orderbook"]]))
  = replay_plan
      (DesiredSet (edited_session example_signature no_options 1700000000 ["orderbook"]
                     [CallSubscribe ["wallet"]; CallUnsubscribe ["orderbook"]])).
Proof.
  refine (proj2 (proj2 (reconnect_replays_desired_set example_signature no_options 1700000000
            ["orderbook"] [CallSubscribe ["wallet"]; CallUnsubscribe ["orderbook"]]
            three_failures _ _))).
  - repeat constructor.
  - discriminate.
Defined.


Section Restart.

Variable createSignature : string -> string -> string -> Z -> string.



End Restart.


Section WhileWaiting.

Variable createSignature : string -> string -> string -> Z -> string.

(** X20.  While the instance waits to reconnect, [disconnect] cannot stop it:
    the call throws the not-connected error and changes nothing, and when
    the timer fires [connect] constructs the next socket all the same. *)
Theorem disconnect_while_waiting_does_not_stop (opts : Options) (now : Z)
    (events : list string) (edits : list Step) (now' : Z) :
  edits_only edits ->
  disconnect (snd (exec createSignature (SocketCloses 0)
                     (edited_session createSignature opts now events edits)))
  = (Throw not_connected,
     snd (exec createSignature (SocketCloses 0)
            (edited_session createSignature opts now events edits))) /\
  connection_state
    (snd (exec createSignature (TimerFires now')
            (snd (exec createSignature (SocketCloses 0)
                    (edited_session createSignature opts now events edits)))))
  = Connecting /\
  length (sockets
    (snd (exec createSignature (TimerFires now')
            (snd (exec createSignature (SocketCloses 0)
                    (edited_session createSignature opts now events edits))))))
  = 2%nat.
Proof.
  intros He. unfold edited_session. rewrite run_app.
  destruct (plain_session createSignature opts now events) as (H0 & _).
  pose proof (edits_keep_session createSignature edits _ _ _ _ _ He H0) as H1.
  destruct (socket_closes createSignature OPEN 0 0 _ _ ltac:(discriminate) kit_table_fresh H1)
    as (Hw & _).
  destruct (timer_fires createSignature now' 0 0 _ _ Hw) as ((Hws & (s & Hs & Hr & _) & Hlen & _) & _).
  destruct Hw as (Hnone & _).
  split; [| split; [| exact Hlen]].
  - unfold disconnect, wsConnected, current_socket. now rewrite Hnone.
  - unfold connection_state, current_socket. rewrite Hws. cbn [mbind option_bind].
    now rewrite Hs, Hr.
Qed.

End WhileWaiting.

Lemma disconnect_while_waiting_does_not_stop_witness :
  disconnect (snd (exec example_signature (SocketCloses 0)
                     (edited_session example_signature no_options 1700000000 ["orderbook"] [])))
  = (Throw not_connected,
     snd (exec example_signature (SocketCloses 0)
            (edited_session example_signature no_options 1700000000 ["orderbook"] []))).
Proof.
  exact (proj1 (disconnect_while_waiting_does_not_stop example_signature no_options 1700000000
                  ["orderbook"] [] 1700000005 (List.Forall_nil _))).
Defined.
